(** * pull_viaf: enriching MARC records with VIAF identifiers

    A shallow embedding of [src/pull_viaf.py] and the properties of its three
    functions: the resolver [viaf_request], the splicer [update_record] and
    the driver [process_marc_records].

    Python values are dynamically typed, so the values that flow from the
    JSON body of the VIAF answer into the splicer are one inductive type
    [PyValue]; Python exceptions are an explicit [Raise] result; the record
    objects of pymarc live in a store and are passed around by reference,
    because [update_record] assigns to [record.fields] of the object it is
    given. *)

From Stdlib Require Import ZArith String Ascii List Bool Lia.
From Stdlib Require Import Floats.SpecFloat.
From stdpp Require Import base option gmap list strings.

#[local] Set Warnings "-register-all".
#[local] Open Scope Z_scope.

(** ** Python values *)

(** The values [json.loads] can produce: [None], booleans, integers, floats,
    strings, lists and dictionaries with string keys. A string is the
    sequence of the bytes of its UTF-8 encoding. *)
Inductive PyValue : Type :=
| PyNone
| PyBool (b : bool)
| PyInt (z : Z)
| PyFloat (f : spec_float)
| PyStr (s : string)
| PyList (l : list PyValue)
| PyDict (d : gmap string PyValue).

(** The exceptions this program can meet. [RequestException] stands for the
    transport errors of [requests.get]. *)
Inductive exn : Type :=
| TypeError
| KeyError
| IndexError
| AttributeError
| ValueError
| RequestException.

(** [except ValueError] catches [ValueError] and its subclasses; of the
    exceptions above only [ValueError] itself (the JSON decoding error) is
    one: [KeyError] and [IndexError] derive from [LookupError]. *)
Definition is_ValueError (e : exn) : bool :=
  match e with ValueError => true | _ => false end.

(** The result of evaluating a Python expression. *)
Inductive result (A : Type) : Type :=
| Ok (a : A)
| Raise (e : exn).
Arguments Ok {A} a.
Arguments Raise {A} e.

(** Truth value testing ([if x:]). *)
Definition truthy (v : PyValue) : bool :=
  match v with
  | PyNone => false
  | PyBool b => b
  | PyInt z => negb (z =? 0)
  | PyFloat (S754_zero _) => false
  | PyFloat _ => true
  | PyStr s => negb (String.eqb s "")
  | PyList [] => false
  | PyList (_ :: _) => true
  | PyDict d => negb (Nat.eqb (size d) 0)
  end.

(** [sub in s] on strings: [sub] occurs in [s]. *)
Fixpoint str_contains (sub s : string) : bool :=
  String.prefix sub s ||
  match s with
  | EmptyString => false
  | String _ s' => str_contains sub s'
  end.

(** [k in v] for a string [k]: key membership on a dict, element membership
    on a list, substring on a string, [TypeError] on the values that are not
    iterable. *)
Definition py_in (k : string) (v : PyValue) : result bool :=
  match v with
  | PyDict d => Ok (bool_decide (is_Some (d !! k)))
  | PyList l =>
      Ok (existsb (fun x => match x with
                            | PyStr s => String.eqb s k
                            | _ => false
                            end) l)
  | PyStr s => Ok (str_contains k s)
  | _ => Raise TypeError
  end.

(** [v.get(k, default)]: only dictionaries have the method. *)
Definition py_get (v : PyValue) (k : string) (default : PyValue) : result PyValue :=
  match v with
  | PyDict d => Ok (from_option id default (d !! k))
  | _ => Raise AttributeError
  end.

(** The number of bytes of the UTF-8 character whose first byte is [c]. *)
Definition utf8_width (c : ascii) : nat :=
  let n := nat_of_ascii c in
  if Nat.ltb n 192 then 1%nat
  else if Nat.ltb n 224 then 2%nat
  else if Nat.ltb n 240 then 3%nat
  else 4%nat.

Fixpoint str_take (n : nat) (s : string) : string :=
  match n, s with
  | S m, String c rest => String c (str_take m rest)
  | _, _ => EmptyString
  end.

(** [s[0]] for the string [s] that starts with the byte [c]: the first
    character, that is [c] with the bytes that continue it. *)
Definition first_char (c : ascii) (rest : string) : string :=
  String c (str_take (utf8_width c - 1) rest).

(** [v[0]]. A JSON dictionary has string keys only, so the key [0] is never
    in it. *)
Definition py_item0 (v : PyValue) : result PyValue :=
  match v with
  | PyList [] => Raise IndexError
  | PyList (x :: _) => Ok x
  | PyStr EmptyString => Raise IndexError
  | PyStr (String c rest) => Ok (PyStr (first_char c rest))
  | PyDict _ => Raise KeyError
  | _ => Raise TypeError
  end.

(** [v[k]] for a string key [k]. *)
Definition py_getitem (v : PyValue) (k : string) : result PyValue :=
  match v with
  | PyDict d =>
      match d !! k with
      | Some x => Ok x
      | None => Raise KeyError
      end
  | _ => Raise TypeError
  end.

(** ** pymarc fields and records *)

(** [Subfield(code, value)]. *)
Inductive subfield : Type :=
| Subfield (code value : string).

(** A field is a control field (tag and raw data) or a data field (tag,
    indicators, subfields); which one is fixed when the field is built. *)
Inductive field : Type :=
| ControlField (tag data : string)
| DataField (tag : string) (indicators : list string) (subfields : list subfield).

Definition field_tag (f : field) : string :=
  match f with
  | ControlField t _ => t
  | DataField t _ _ => t
  end.

Definition is_digit (c : ascii) : bool :=
  Nat.leb 48 (nat_of_ascii c) && Nat.leb (nat_of_ascii c) 57.

Fixpoint all_digits (s : string) : bool :=
  match s with
  | EmptyString => true
  | String c s' => is_digit c && all_digits s'
  end.

(** [s.isdigit()]. *)
Definition isdigit (s : string) : bool :=
  negb (String.eqb s "") && all_digits s.

(** pymarc: [tag < "010" and tag.isdigit()]. *)
Definition is_control_tag (tag : string) : bool :=
  String.ltb tag "010" && isdigit tag.

(** The constructor call [Field(tag=..., indicators=..., subfields=...)]:
    pymarc builds a control field for a control tag (its data defaults to the
    empty string) and a data field otherwise. The constructor's
    normalisation of integer tags is the identity on three-digit tags, the
    only ones this program passes. *)
Definition Field (tag : string) (indicators : list string)
    (subfields : list subfield) : field :=
  if is_control_tag tag then ControlField tag ""
  else DataField tag indicators subfields.

(** [field.is_control_field()]. *)
Definition is_control_field (f : field) : bool :=
  match f with
  | ControlField _ _ => true
  | DataField _ _ _ => false
  end.

Definition is_space (c : ascii) : bool :=
  let n := nat_of_ascii c in
  (Nat.leb 9 n && Nat.leb n 13) || (Nat.leb 28 n && Nat.leb n 32).

Fixpoint lstrip (s : string) : string :=
  match s with
  | EmptyString => EmptyString
  | String c s' => if is_space c then lstrip s' else s
  end.

Fixpoint rstrip (s : string) : string :=
  match s with
  | EmptyString => EmptyString
  | String c s' =>
      match rstrip s' with
      | EmptyString => if is_space c then EmptyString else String c EmptyString
      | r => String c r
      end
  end.

Definition strip (s : string) : string := rstrip (lstrip s).

Definition subfield_value (sf : subfield) : string :=
  match sf with Subfield _ v => v end.

Fixpoint join (sep : string) (l : list string) : string :=
  match l with
  | [] => EmptyString
  | [x] => x
  | x :: rest => String.append x (String.append sep (join sep rest))
  end.

(** [field.value()]: the data of a control field, the stripped subfield
    values joined by spaces for a data field. *)
Definition Field_value (f : field) : string :=
  match f with
  | ControlField _ d => d
  | DataField _ _ sfs => join " " (map (fun sf => strip (subfield_value sf)) sfs)
  end.

(** A pymarc [Record]: the leader and the list of fields. *)
Record MarcRecord : Type := mkRecord {
  leader : string;
  fields : list field
}.

Definition set_fields (r : MarcRecord) (fs : list field) : MarcRecord :=
  {| leader := leader r; fields := fs |}.

(** [record[tag]]: the first field with that tag, [KeyError] when there is
    none. *)
Definition Record_getitem (r : MarcRecord) (tag : string) : result field :=
  match find (fun f => String.eqb (field_tag f) tag) (fields r) with
  | Some f => Ok f
  | None => Raise KeyError
  end.

(** ** List slices *)

(** The bound of a slice, as Python normalises it for a list of length [n]:
    a negative bound counts from the end, and the result is clipped to
    [0..n]. *)
Definition slice_bound (n k : Z) : nat :=
  Z.to_nat (if k <? 0 then Z.max 0 (k + n) else Z.min k n).

(** [l[:k]] and [l[k:]]. *)
Definition slice_to {A} (l : list A) (k : Z) : list A :=
  take (slice_bound (Z.of_nat (length l)) k) l.

Definition slice_from {A} (l : list A) (k : Z) : list A :=
  drop (slice_bound (Z.of_nat (length l)) k) l.

(** The loop of [update_record] over [enumerate(record.fields)]: [i] is the
    index of the head of the list still to visit, [last] the value of
    [last_fixed_index] so far. The [isinstance(field, Field)] test holds for
    every element of a pymarc field list. *)
Fixpoint scan_fixed (i last : Z) (fs : list field) : Z :=
  match fs with
  | [] => last
  | f :: rest => scan_fixed (i + 1) (if is_control_field f then i else last) rest
  end.

Definition last_fixed_index (fs : list field) : Z := scan_fixed 0 (-1) fs.

(** ** The world the program runs in *)

(** A reference to a record object: its index in the store. *)
Definition loc : Type := nat.

(** The lines the program prints, up to the text of the message. *)
Inductive printed : Type :=
| Msg_data_loaded
| Msg_parse_error
| Msg_request_failed (status_code : Z).

(** [heap] holds the record objects in allocation order, [stdout] the lines
    printed, [output] the records [MARCWriter.write] has serialised, each as
    it was at the time of the call, and [requests] the URLs fetched. *)
Record world : Type := mkWorld {
  heap : list MarcRecord;
  stdout : list printed;
  output : list MarcRecord;
  requests : list string
}.

Definition with_heap (w : world) (h : list MarcRecord) : world :=
  {| heap := h; stdout := stdout w; output := output w; requests := requests w |}.

Definition with_stdout (w : world) (so : list printed) : world :=
  {| heap := heap w; stdout := so; output := output w; requests := requests w |}.

Definition with_output (w : world) (out : list MarcRecord) : world :=
  {| heap := heap w; stdout := stdout w; output := out; requests := requests w |}.

Definition with_requests (w : world) (rq : list string) : world :=
  {| heap := heap w; stdout := stdout w; output := output w; requests := rq |}.

Definition empty_world : world :=
  {| heap := []; stdout := []; output := []; requests := [] |}.

(** A [requests.Response]: the status code and what [.json()] gives, [None]
    for a body that is not JSON. *)
Record Response : Type := mkResponse {
  status_code : Z;
  body_json : option PyValue
}.

(** [response.json()] raises a [ValueError] on a body that does not parse. *)
Definition Response_json (r : Response) : result PyValue :=
  match body_json r with
  | Some v => Ok v
  | None => Raise ValueError
  end.

(** ** Computations: state and exceptions *)

Definition M (A : Type) : Type := world -> result A * world.

Definition ret {A} (a : A) : M A := fun w => (Ok a, w).

Definition bind {A B} (m : M A) (k : A -> M B) : M B :=
  fun w =>
    match m w with
    | (Ok a, w') => k a w'
    | (Raise e, w') => (Raise e, w')
    end.

Definition lift {A} (r : result A) : M A := fun w => (r, w).

Declare Scope py_scope.
Delimit Scope py_scope with py.
Notation "'let*' x ':=' c 'in' k" := (bind c (fun x => k))
  (at level 10, x name, c at level 100, k at level 200) : py_scope.
#[local] Open Scope py_scope.

(** [try: body except E: handler], where [catches] tells the exceptions [E]
    covers. *)
Definition try_except {A} (body : M A) (catches : exn -> bool) (handler : M A) : M A :=
  fun w =>
    match body w with
    | (Raise e, w') => if catches e then handler w' else (Raise e, w')
    | r => r
    end.

Definition print (p : printed) : M unit :=
  fun w => (Ok tt, with_stdout w (stdout w ++ [p])).

(** The object a reference points to. A Python program holds no reference to
    an object that is not there; the model answers [AttributeError]. *)
Definition deref (record : loc) : M MarcRecord :=
  fun w =>
    match heap w !! record with
    | Some r => (Ok r, w)
    | None => (Raise AttributeError, w)
    end.

(** [record.fields = fs]: the attribute of the object is bound to a new
    list; the object keeps its identity. *)
Definition assign_fields (record : loc) (fs : list field) : M unit :=
  fun w =>
    match heap w !! record with
    | Some r => (Ok tt, with_heap w (<[record := set_fields r fs]> (heap w)))
    | None => (Raise AttributeError, w)
    end.

(** The reader decodes the next record of the input into a new object. *)
Definition reader_next (r : MarcRecord) : M loc :=
  fun w => (Ok (length (heap w)), with_heap w (heap w ++ [r])).

(** [writer.write(record)] serialises the object as it is now. *)
Definition writer_write (record : loc) : M unit :=
  fun w =>
    match heap w !! record with
    | Some r => (Ok tt, with_output w (output w ++ [r]))
    | None => (Raise AttributeError, w)
    end.

(** [f'https://www.viaf.org/viaf/sourceID/ERRR|{identifier}/justlinks.json'] *)
Definition viaf_url (identifier : string) : string :=
  String.append "https://www.viaf.org/viaf/sourceID/ERRR|"
    (String.append identifier "/justlinks.json").

(** The dict literal [{"ISNI": isni, "VIAF": viaf, "WKP": wkp}]. *)
Definition codes_dict (isni viaf wkp : PyValue) : PyValue :=
  PyDict (<["ISNI" := isni]> (<["VIAF" := viaf]> (<["WKP" := wkp]> ∅))).

(** ** The vocabulary of the specification *)

Definition no_control (fs : list field) : Prop :=
  Forall (fun f => is_control_field f = false) fs.

Definition all_control (fs : list field) : Prop :=
  Forall (fun f => is_control_field f = true) fs.

(** The last field of the list is a control field. *)
Definition ends_with_control (fs : list field) : Prop :=
  exists front cf, fs = front ++ [cf] /\ is_control_field cf = true.

(** The invariant of a well-formed record: the control fields are a leading
    run of the field sequence, no variable field precedes a control field. *)
Definition control_fields_lead (fs : list field) : Prop :=
  exists pre post, fs = pre ++ post /\ all_control pre /\ no_control post.

(** The three fields of the specification, section 4.2. *)
Definition isni_field (code : string) : field :=
  DataField "024" ["7"; " "] [Subfield "a" code; Subfield "2" "isni"].

Definition viaf_field (code : string) : field :=
  DataField "024" ["7"; " "]
    [Subfield "a" (String.append "http://viaf.org/viaf/" code); Subfield "2" "uri"].

Definition wkp_field (code : string) : field :=
  DataField "024" ["8"; " "]
    [Subfield "a" (String.append "https://www.wikidata.org/wiki/" code)].

(** Identifier codes as the specification types them: three optional
    strings. A code counts when it is present and not empty. *)
Definition code_value (o : option string) : PyValue :=
  match o with
  | Some s => PyStr s
  | None => PyNone
  end.

Definition when_present (o : option string) (mk : string -> field) : list field :=
  match o with
  | Some s => if String.eqb s "" then [] else [mk s]
  | None => []
  end.

(** The new fields as the specification lists them: ISNI, VIAF, Wikidata, in
    this order, each only when its code is present and not empty. *)
Definition expected_fields (isni viaf wkp : option string) : list field :=
  when_present isni isni_field ++ when_present viaf viaf_field ++
  when_present wkp wkp_field.

(** The number of records the loop handles before it is left, when it starts
    with the counter at [record_count]: the whole input without a cap, and
    with a cap [n] as many as the cap allows, one at least, since the cap is
    tested after a record is written. *)
Definition processed_from (num_records_to_process : option Z) (record_count : Z)
    (len : nat) : nat :=
  match num_records_to_process with
  | None => len
  | Some n => Nat.min len (Z.to_nat (Z.max 1 (n - record_count)))
  end.

(** [d.get(k, default)[0] if k in d else None] on a dictionary [d]: nothing
    for a missing key, the item 0 of the value otherwise. *)
Definition item0_if_present (d : gmap string PyValue) (k : string) : result PyValue :=
  match d !! k with
  | None => Ok PyNone
  | Some v => py_item0 v
  end.

(** The key is missing or its value is an array with a first element. *)
Definition absent_or_array (d : gmap string PyValue) (k : string) : Prop :=
  d !! k = None \/ exists x rest, d !! k = Some (PyList (x :: rest)).

(** The first element of the array at key [k], nothing for a missing key. *)
Definition first_of_array (d : gmap string PyValue) (k : string) : PyValue :=
  match d !! k with
  | Some (PyList (x :: _)) => x
  | _ => PyNone
  end.

(** [v is None] *)
Definition is_None (v : PyValue) : bool :=
  match v with
  | PyNone => true
  | _ => false
  end.

(** The JSON values that are neither strings nor containers: [null], the
    booleans and the numbers. *)
Definition is_scalar (v : PyValue) : bool :=
  match v with
  | PyNone | PyBool _ | PyInt _ | PyFloat _ => true
  | _ => false
  end.

(** How many of the three codes count as present for [update_record]. *)
Definition truthy_count (isni viaf wkp : PyValue) : nat :=
  (Nat.b2n (truthy isni) + Nat.b2n (truthy viaf) + Nat.b2n (truthy wkp))%nat.

(** The resolver returned [None]. *)
Definition returns_None (res : result PyValue) : bool :=
  match res with
  | Ok v => is_None v
  | Raise _ => false
  end.

(** ** Sample data *)

(** A record with one control field and one variable field. *)
Definition sample_record : MarcRecord :=
  {| leader := "00000nz  a2200000n  4500";
     fields := [ControlField "001" "a11111";
                DataField "100" ["1"; " "] [Subfield "a" "Tammsaare, A. H."]] |}.

(** A record without control fields. *)
Definition sample_record_no_control : MarcRecord :=
  {| leader := "00000nz  a2200000n  4500";
     fields := [DataField "100" ["1"; " "] [Subfield "a" "Tammsaare, A. H."]] |}.

(** A store whose only object, at reference 0, is [sample_record]. *)
Definition sample_world : world := with_heap empty_world [sample_record].

(** [{ISNI: "0000000123456789", VIAF: "12345", WKP: "Q42"}] *)
Definition sample_codes : PyValue :=
  codes_dict (PyStr "0000000123456789") (PyStr "12345") (PyStr "Q42").

(** [str] for runs in which only strings are formatted. *)
Definition str_unused : PyValue -> string := fun _ => EmptyString.

(** A service that answers every request with [200] and [{"viafID": "999"}]. *)
Definition answer_viaf_only : string -> result Response :=
  fun _ => Ok {| status_code := 200;
                 body_json := Some (PyDict {[ "viafID" := PyStr "999" ]}) |}.

(** A service that answers every request with [404]. *)
Definition answer_404 : string -> result Response :=
  fun _ => Ok {| status_code := 404; body_json := None |}.

(** A service that answers [200] with a body that is not JSON. *)
Definition answer_malformed : string -> result Response :=
  fun _ => Ok {| status_code := 200; body_json := None |}.

(** A service that answers [200] with [{"ISNI": []}]. *)
Definition answer_empty_isni : string -> result Response :=
  fun _ => Ok {| status_code := 200;
                 body_json := Some (PyDict {[ "ISNI" := PyList [] ]}) |}.

(** A service that answers [200] with [{"viafID": "999", "WKP": []}]. *)
Definition answer_empty_wkp : string -> result Response :=
  fun _ => Ok {| status_code := 200;
                 body_json :=
                   Some (PyDict (<["viafID" := PyStr "999"]>
                                   {[ "WKP" := PyList [] ]})) |}.

(** A network on which every request fails in transport. *)
Definition answer_unreachable : string -> result Response :=
  fun _ => Raise RequestException.

(** A service that answers [200] with [{"ISNI": "0000000123456789"}], the
    code as a string and not in an array. *)
Definition answer_isni_string : string -> result Response :=
  fun _ => Ok {| status_code := 200;
                 body_json :=
                   Some (PyDict {[ "ISNI" := PyStr "0000000123456789" ]}) |}.

(** A service that answers [200] with the JSON array [["x"]]. *)
Definition answer_array_body : string -> result Response :=
  fun _ => Ok {| status_code := 200; body_json := Some (PyList [PyStr "x"]) |}.

(** A service that answers [200] with the JSON number [7]. *)
Definition answer_number_body : string -> result Response :=
  fun _ => Ok {| status_code := 200; body_json := Some (PyInt 7) |}.

Section Program.

(** [str(v)] for the values that are not strings: an f-string formats a
    string as itself and any other value by the interpreter's [str]. *)
Variable py_str : PyValue -> string.

(** The network: what [requests.get] answers for a URL, a response or a
    transport error. *)
Variable network : string -> result Response.

Definition format (v : PyValue) : string :=
  match v with
  | PyStr s => s
  | _ => py_str v
  end.

Definition requests_get (url : string) : M Response :=
  fun w => (network url, with_requests w (requests w ++ [url])).

(** [d.get(k, default)[0] if k in d else None] *)
Definition first_if_present (viaf_data : PyValue) (k : string) : M PyValue :=
  let* present := lift (py_in k viaf_data) in
  if (present : bool) then
    let* v := lift (py_get viaf_data k (PyList [PyStr ""])) in
    lift (py_item0 v)
  else ret PyNone.

(** [d.get(k, default) if k in d else None] *)
Definition value_if_present (viaf_data : PyValue) (k : string)
    (default : PyValue) : M PyValue :=
  let* present := lift (py_in k viaf_data) in
  if (present : bool) then lift (py_get viaf_data k default)
  else ret PyNone.

Definition viaf_request (identifier : string) : M PyValue :=
  let* viaf_response := requests_get (viaf_url identifier) in
  if status_code viaf_response =? 200 then
    try_except
      (let* viaf_data := lift (Response_json viaf_response) in
       let* isni_code := first_if_present viaf_data "ISNI" in
       let* viaf_code := value_if_present viaf_data "viafID" (PyStr "") in
       let* wkp_code := first_if_present viaf_data "WKP" in
       let response_codes := codes_dict isni_code viaf_code wkp_code in
       ret response_codes)
      is_ValueError
      (let* _ := print Msg_parse_error in
       ret PyNone)
  else
    let* _ := print (Msg_request_failed (status_code viaf_response)) in
    ret PyNone.

(** [record] is a reference: the assignment to [record.fields] at the end is
    seen by every holder of the object, and the value returned is the
    reference that was passed in. *)
Definition update_record (record : loc) (response_codes : PyValue) : M loc :=
  let* r := deref record in
  let last_fixed_index := last_fixed_index (fields r) in
  let new_fields := [] in
  let new_fields := new_fields ++ slice_to (fields r) (last_fixed_index + 1) in
  let* isni := lift (py_getitem response_codes "ISNI") in
  let* new_fields :=
    (if truthy isni then
       let* isni := lift (py_getitem response_codes "ISNI") in
       ret (new_fields ++
            [Field "024" ["7"; " "]
               [Subfield "a" (format isni); Subfield "2" "isni"]])
     else ret new_fields) in
  let* viaf := lift (py_getitem response_codes "VIAF") in
  let* new_fields :=
    (if truthy viaf then
       let* viaf := lift (py_getitem response_codes "VIAF") in
       ret (new_fields ++
            [Field "024" ["7"; " "]
               [Subfield "a" (String.append "http://viaf.org/viaf/" (format viaf));
                Subfield "2" "uri"]])
     else ret new_fields) in
  let* wkp := lift (py_getitem response_codes "WKP") in
  let* new_fields :=
    (if truthy wkp then
       let* wkp := lift (py_getitem response_codes "WKP") in
       ret (new_fields ++
            [Field "024" ["8"; " "]
               [Subfield "a" (String.append "https://www.wikidata.org/wiki/" (format wkp))]])
     else ret new_fields) in
  let* r := deref record in
  let new_fields := new_fields ++ slice_from (fields r) (last_fixed_index + 1) in
  let* _ := assign_fields record new_fields in
  ret record.

(** The body of the [for] loop of [process_marc_records], from the
    reader's decoding of the next record to [writer.write(record)]. *)
Definition loop_body (next : MarcRecord) : M unit :=
  let* record := reader_next next in
  let* r := deref record in
  let* f001 := lift (Record_getitem r "001") in
  let identifier := Field_value f001 in
  let* viaf_response_codes := viaf_request identifier in
  let* updated_record := update_record record viaf_response_codes in
  writer_write record.

(** The [for] loop over [enumerate(reader)], with the test that leaves it;
    [tqdm] only displays progress, so both branches of the test on
    [num_records_to_process] before the loop iterate the same way. *)
Fixpoint records_loop (num_records_to_process : option Z) (record_count : Z)
    (input : list MarcRecord) : M unit :=
  match input with
  | [] => ret tt
  | next :: rest =>
      let* _ := loop_body next in
      if match num_records_to_process with
         | Some n => record_count + 1 >=? n
         | None => false
         end
      then ret tt
      else records_loop num_records_to_process (record_count + 1) rest
  end.

(** [input] is the sequence of records the [MARCReader] decodes from the
    input file, [num_records_to_process] is [None] or an integer. Opening and
    closing the two files is left out. *)
Definition process_marc_records (input : list MarcRecord)
    (num_records_to_process : option Z) : M unit :=
  let* _ := print Msg_data_loaded in
  records_loop num_records_to_process 0 input.

(** The fields [update_record] builds for the three values of the codes
    dictionary, by the truth value of each. *)
Definition inserted_fields (isni viaf wkp : PyValue) : list field :=
  (if truthy isni then [isni_field (format isni)] else []) ++
  (if truthy viaf then [viaf_field (format viaf)] else []) ++
  (if truthy wkp then [wkp_field (format wkp)] else []).

(** The field sequence [update_record] leaves in the record. *)
Definition spliced (fs : list field) (isni viaf wkp : PyValue) : list field :=
  slice_to fs (last_fixed_index fs + 1) ++ inserted_fields isni viaf wkp ++
  slice_from fs (last_fixed_index fs + 1).

(** What the resolver returns for an identifier; the world it runs in has
    no part in it (lemma [viaf_request_run]). *)
Definition resolved (identifier : string) : result PyValue :=
  (viaf_request identifier empty_world).1.

(** The record the driver writes for the record [next] it read: [next]
    with the fields spliced for the codes resolved for its 001 field. *)
Definition written_for (next out : MarcRecord) : Prop :=
  exists f001 isni viaf wkp,
    Record_getitem next "001" = Ok f001 /\
    resolved (Field_value f001) = Ok (codes_dict isni viaf wkp) /\
    out = set_fields next (spliced (fields next) isni viaf wkp).


(** ** The scan for the last control field *)

Lemma scan_fixed_app (pre post : list field) (i last : Z) :
  scan_fixed i last (pre ++ post) =
  scan_fixed (i + Z.of_nat (length pre)) (scan_fixed i last pre) post.
Proof.
  revert i last. induction pre as [|f pre IH]; intros i last; simpl.
  - f_equal. lia.
  - rewrite IH. f_equal. lia.
Qed.

Lemma scan_fixed_no_control (fs : list field) (i last : Z) :
  no_control fs -> scan_fixed i last fs = last.
Proof.
  intros Hfs. revert i. induction Hfs as [|f fs Hf _ IH]; intros i; simpl.
  - reflexivity.
  - rewrite Hf. apply IH.
Qed.

Lemma last_fixed_index_none (fs : list field) :
  no_control fs -> last_fixed_index fs = -1.
Proof. apply scan_fixed_no_control. Qed.

Lemma last_fixed_index_last (front post : list field) (cf : field) :
  is_control_field cf = true -> no_control post ->
  last_fixed_index (front ++ cf :: post) = Z.of_nat (length front).
Proof.
  intros Hcf Hpost. unfold last_fixed_index.
  rewrite scan_fixed_app. simpl. rewrite Hcf.
  by rewrite scan_fixed_no_control.
Qed.

(** Every field sequence splits at its last control field. *)
Lemma last_control_split (fs : list field) :
  no_control fs \/
  exists front cf post,
    fs = front ++ cf :: post /\ is_control_field cf = true /\ no_control post.
Proof.
  induction fs as [|f fs IH].
  - left. constructor.
  - destruct IH as [Hno | (front & cf & post & -> & Hcf & Hpost)].
    + destruct (is_control_field f) eqn:Hf.
      * right. exists [], f, fs. done.
      * left. by constructor.
    + right. exists (f :: front), cf, post. done.
Qed.

Lemma no_control_existsb (fs : list field) :
  no_control fs -> existsb is_control_field fs = false.
Proof.
  induction 1 as [|f fs Hf _ IH]; simpl; [done|]. by rewrite Hf.
Qed.

Lemma control_existsb (front post : list field) (cf : field) :
  is_control_field cf = true ->
  existsb is_control_field (front ++ cf :: post) = true.
Proof.
  intros Hcf. rewrite existsb_app. simpl. rewrite Hcf.
  by rewrite orb_true_r.
Qed.

(** The invariant in the words of the specification: no variable field
    precedes a control field. *)
Lemma control_fields_lead_iff (fs : list field) :
  control_fields_lead fs <->
  forall (i j : nat) (f g : field),
    fs !! i = Some f -> fs !! j = Some g ->
    is_control_field f = false -> is_control_field g = true -> (j < i)%nat.
Proof.
  split.
  - intros (pre & post & -> & Hpre & Hpost) i j f g Hi Hj Hf Hg.
    destruct (decide (i < length pre)%nat) as [Hlt|Hge].
    { rewrite lookup_app_l in Hi by done.
      apply (proj1 (Forall_lookup _ _) Hpre) in Hi. congruence. }
    destruct (decide (j < length pre)%nat) as [Hlt|Hge']; [lia|].
    rewrite lookup_app_r in Hj by lia.
    apply (proj1 (Forall_lookup _ _) Hpost) in Hj. congruence.
  - induction fs as [|f fs IH]; intros Hord.
    + exists [], []. by repeat split; constructor.
    + destruct (is_control_field f) eqn:Hf.
      * destruct IH as (pre & post & -> & Hpre & Hpost).
        { intros i j f' g Hi Hj Hf' Hg.
          specialize (Hord (S i) (S j) f' g Hi Hj Hf' Hg). lia. }
        exists (f :: pre), post. repeat split; [|done]. by constructor.
      * exists [], (f :: fs). repeat split; [constructor|].
        apply Forall_lookup. intros j g Hj.
        destruct (is_control_field g) eqn:Hg; [|done].
        specialize (Hord 0%nat j f g eq_refl Hj Hf Hg). lia.
Qed.

(** ** Slices *)

Lemma slice_to_app {A} (pre post : list A) :
  slice_to (pre ++ post) (Z.of_nat (length pre)) = pre.
Proof.
  unfold slice_to, slice_bound. rewrite length_app.
  destruct (Z.ltb_spec (Z.of_nat (length pre)) 0); [lia|].
  replace (Z.to_nat _) with (length pre) by lia.
  by rewrite take_app_length.
Qed.

Lemma slice_from_app {A} (pre post : list A) :
  slice_from (pre ++ post) (Z.of_nat (length pre)) = post.
Proof.
  unfold slice_from, slice_bound. rewrite length_app.
  destruct (Z.ltb_spec (Z.of_nat (length pre)) 0); [lia|].
  replace (Z.to_nat _) with (length pre) by lia.
  by rewrite drop_app_length.
Qed.

Lemma slice_to_from {A} (l : list A) (k : Z) :
  slice_to l k ++ slice_from l k = l.
Proof. apply take_drop. Qed.

(** The two slices [update_record] takes, at the index after the last
    control field. *)
Lemma splice_point (fs : list field) :
  exists pre post,
    slice_to fs (last_fixed_index fs + 1) = pre /\
    slice_from fs (last_fixed_index fs + 1) = post /\
    fs = pre ++ post /\ no_control post /\
    (if existsb is_control_field fs then ends_with_control pre else pre = []).
Proof.
  destruct (last_control_split fs)
    as [Hno | (front & cf & post & -> & Hcf & Hpost)].
  - exists [], fs. rewrite last_fixed_index_none by done.
    rewrite no_control_existsb by done.
    pose proof (slice_to_app [] fs) as Hto.
    pose proof (slice_from_app [] fs) as Hfrom.
    simpl in Hto, Hfrom. change (-1 + 1) with (Z.of_nat 0).
    rewrite Hto, Hfrom. done.
  - exists (front ++ [cf]), post.
    rewrite last_fixed_index_last by done.
    rewrite control_existsb by done.
    replace (Z.of_nat (length front) + 1)
      with (Z.of_nat (length (front ++ [cf])))
      by (rewrite length_app; simpl; lia).
    replace (front ++ cf :: post) with ((front ++ [cf]) ++ post)
      by (by rewrite <- app_assoc).
    rewrite slice_to_app, slice_from_app.
    repeat split; try done. by exists front, cf.
Qed.

Lemma splice_point_leading (pre post : list field) :
  all_control pre -> no_control post ->
  slice_to (pre ++ post) (last_fixed_index (pre ++ post) + 1) = pre /\
  slice_from (pre ++ post) (last_fixed_index (pre ++ post) + 1) = post.
Proof.
  intros Hpre Hpost.
  destruct pre as [|f pre' _] using rev_ind.
  - simpl. rewrite last_fixed_index_none by done.
    pose proof (slice_to_app [] post) as Hto.
    pose proof (slice_from_app [] post) as Hfrom.
    simpl in Hto, Hfrom. change (-1 + 1) with (Z.of_nat 0).
    by rewrite Hto, Hfrom.
  - apply Forall_app in Hpre as [_ Hf]. apply Forall_inv in Hf.
    rewrite <- app_assoc. simpl.
    rewrite last_fixed_index_last by done.
    replace (Z.of_nat (length pre') + 1)
      with (Z.of_nat (length (pre' ++ [f])))
      by (rewrite length_app; simpl; lia).
    replace (pre' ++ f :: post) with ((pre' ++ [f]) ++ post)
      by (by rewrite <- app_assoc).
    by rewrite slice_to_app, slice_from_app.
Qed.

(** ** The splicer *)

Lemma codes_dict_ISNI (i v c : PyValue) :
  py_getitem (codes_dict i v c) "ISNI" = Ok i.
Proof. unfold codes_dict, py_getitem. by simplify_map_eq. Qed.

Lemma codes_dict_VIAF (i v c : PyValue) :
  py_getitem (codes_dict i v c) "VIAF" = Ok v.
Proof. unfold codes_dict, py_getitem. by simplify_map_eq. Qed.

Lemma codes_dict_WKP (i v c : PyValue) :
  py_getitem (codes_dict i v c) "WKP" = Ok c.
Proof. unfold codes_dict, py_getitem. by simplify_map_eq. Qed.

Lemma no_control_inserted (i v c : PyValue) :
  no_control (inserted_fields i v c).
Proof.
  unfold inserted_fields, no_control.
  destruct (truthy i), (truthy v), (truthy c); simpl;
    repeat constructor.
Qed.

(** Two runs that end in the same world up to the fields stored. *)
Ltac same_fields :=
  try reflexivity;
  match goal with
  | |- (_, with_heap _ (<[_ := set_fields _ ?X]> _)) =
       (_, with_heap _ (<[_ := set_fields _ ?Y]> _)) =>
      let E := fresh in
      assert (X = Y) as E;
      [ rewrite <- ?app_assoc; reflexivity | rewrite E; reflexivity ]
  end.

(** On a codes dictionary the splicer rebinds the fields of the object it
    was given and returns the same reference. *)
Lemma update_record_dict (l : loc) (w : world) (r : MarcRecord)
    (i v c : PyValue) :
  heap w !! l = Some r ->
  update_record l (codes_dict i v c) w =
  (Ok l, with_heap w (<[l := set_fields r (spliced (fields r) i v c)]> (heap w))).
Proof.
  intros Hl.
  unfold update_record, spliced, inserted_fields, bind, deref, lift,
    assign_fields, ret.
  rewrite Hl, codes_dict_ISNI, codes_dict_VIAF, codes_dict_WKP.
  destruct (truthy i), (truthy v), (truthy c); simpl; rewrite ?Hl;
    same_fields.
Qed.

(** Whatever the codes argument is, the splicer either raises and leaves
    the world as it was, or splices data fields in. *)
Lemma update_record_cases (l : loc) (codes : PyValue) (w : world)
    (r : MarcRecord) :
  heap w !! l = Some r ->
  (exists e, update_record l codes w = (Raise e, w)) \/
  (exists new,
      no_control new /\
      update_record l codes w =
      (Ok l, with_heap w
               (<[l := set_fields r
                         (slice_to (fields r) (last_fixed_index (fields r) + 1)
                          ++ new ++
                          slice_from (fields r) (last_fixed_index (fields r) + 1))]>
                  (heap w)))).
Proof.
  intros Hl.
  unfold update_record, bind, deref, lift, assign_fields, ret.
  rewrite Hl.
  destruct (py_getitem codes "ISNI") as [i|e]; [|left; by exists e].
  destruct (py_getitem codes "VIAF") as [v|e];
    [|destruct (truthy i); left; by exists e].
  destruct (py_getitem codes "WKP") as [c|e];
    [|destruct (truthy i), (truthy v); left; by exists e].
  right. exists (inserted_fields i v c). split; [apply no_control_inserted|].
  unfold inserted_fields.
  destruct (truthy i), (truthy v), (truthy c); simpl; rewrite ?Hl;
    same_fields.
Qed.

Lemma with_heap_id (w : world) (l : loc) (r : MarcRecord) :
  heap w !! l = Some r -> with_heap w (<[l := r]> (heap w)) = w.
Proof.
  intros Hl. destruct w as [h so out rq]. unfold with_heap. simpl in *.
  by rewrite list_insert_id.
Qed.

Lemma set_fields_id (r : MarcRecord) : set_fields r (fields r) = r.
Proof. by destruct r. Qed.

(** ** The resolver *)

Lemma py_item0_not_ValueError (v : PyValue) (e : exn) :
  py_item0 v = Raise e -> is_ValueError e = false.
Proof.
  destruct v as [| | | |s|l|d]; simpl; try (by intros [= <-]).
  - destruct s; [by intros [= <-]|done].
  - destruct l; [by intros [= <-]|done].
Qed.

Lemma first_if_present_dict (d : gmap string PyValue) (k : string) (w : world) :
  first_if_present (PyDict d) k w = (item0_if_present d k, w).
Proof.
  unfold first_if_present, item0_if_present, bind, lift, ret. simpl.
  by destruct (d !! k) as [v|] eqn:Hk.
Qed.

Lemma value_if_present_dict (d : gmap string PyValue) (k : string)
    (default : PyValue) (w : world) :
  value_if_present (PyDict d) k default w =
  (Ok (from_option id PyNone (d !! k)), w).
Proof.
  unfold value_if_present, bind, lift, ret. simpl.
  by destruct (d !! k) as [v|] eqn:Hk.
Qed.

(** The resolver on a 200 answer whose body is a JSON object. *)
Lemma viaf_request_dict (identifier : string) (w : world) (resp : Response)
    (d : gmap string PyValue) :
  network (viaf_url identifier) = Ok resp ->
  status_code resp = 200 ->
  body_json resp = Some (PyDict d) ->
  viaf_request identifier w =
  (match item0_if_present d "ISNI" with
   | Raise e => Raise e
   | Ok isni =>
       match item0_if_present d "WKP" with
       | Raise e => Raise e
       | Ok wkp =>
           Ok (codes_dict isni (from_option id PyNone (d !! "viafID")) wkp)
       end
   end,
   with_requests w (requests w ++ [viaf_url identifier])).
Proof.
  intros Hnet Hst Hbody.
  unfold viaf_request, requests_get, try_except, bind, Response_json, lift.
  rewrite Hnet, Hst, Hbody. simpl.
  rewrite first_if_present_dict.
  destruct (item0_if_present d "ISNI") as [isni|e] eqn:Hisni.
  2:{ unfold item0_if_present in Hisni.
      destruct (d !! "ISNI"); [|done].
      by rewrite (py_item0_not_ValueError _ _ Hisni). }
  rewrite value_if_present_dict, first_if_present_dict.
  destruct (item0_if_present d "WKP") as [wkp|e] eqn:Hwkp; [done|].
  unfold item0_if_present in Hwkp.
  destruct (d !! "WKP"); [|done].
  by rewrite (py_item0_not_ValueError _ _ Hwkp).
Qed.

(** Case analysis on every step of the resolver. *)
Ltac crunch :=
  repeat (simpl;
          match goal with
          | |- context [network ?u] => destruct (network u) as [?|?]
          | |- context [status_code ?r =? 200] =>
              destruct (status_code r =? 200)
          | |- context [body_json ?r] => destruct (body_json r) as [?|]
          | |- context [py_in ?k ?v] => destruct (py_in k v) as [[|]|?]
          | |- context [py_get ?v ?k ?d] => destruct (py_get v k d) as [?|?]
          | |- context [py_item0 ?v] => destruct (py_item0 v) as [?|?]
          | |- context [is_ValueError ?e] => destruct (is_ValueError e)
          end);
  simpl.

(** The resolver only adds to the URLs fetched and to the lines printed;
    what it returns does not depend on the world. *)
Lemma viaf_request_run (identifier : string) (w : world) :
  (viaf_request identifier w).1 = resolved identifier /\
  heap (viaf_request identifier w).2 = heap w /\
  output (viaf_request identifier w).2 = output w /\
  requests (viaf_request identifier w).2 = requests w ++ [viaf_url identifier].
Proof.
  unfold resolved, viaf_request, first_if_present, value_if_present,
    requests_get, try_except, print, Response_json, bind, lift, ret.
  crunch; repeat split; congruence.
Qed.

(** The resolver returns [None] or the dictionary of the three codes. *)
Lemma resolved_shape (identifier : string) (codes : PyValue) :
  resolved identifier = Ok codes ->
  codes = PyNone \/ exists i v c, codes = codes_dict i v c.
Proof.
  unfold resolved, viaf_request, first_if_present, value_if_present,
    requests_get, try_except, print, Response_json, bind, lift, ret.
  crunch; intros [= <-]; eauto.
Qed.

(** ** The driver *)

Lemma update_record_None (l : loc) (w : world) (r : MarcRecord) :
  heap w !! l = Some r -> update_record l PyNone w = (Raise TypeError, w).
Proof.
  intros Hl. unfold update_record, bind, deref, lift. by rewrite Hl.
Qed.

(** One turn of the loop either raises before anything is written or
    writes the record it read with the new fields spliced in. *)
Lemma loop_body_spec (next : MarcRecord) (w : world) :
  (exists e w', loop_body next w = (Raise e, w') /\ output w' = output w) \/
  (exists out w',
      loop_body next w = (Ok tt, w') /\ written_for next out /\
      output w' = output w ++ [out]).
Proof.
  unfold loop_body, bind, reader_next, deref, lift. simpl.
  rewrite list_lookup_middle by done.
  destruct (Record_getitem next "001") as [f001|e] eqn:H001;
    [|left; by eexists _, _].
  destruct (viaf_request_run (Field_value f001)
              (with_heap w (heap w ++ [next]))) as (Hres & Hheap & Hout & _).
  destruct (viaf_request (Field_value f001) (with_heap w (heap w ++ [next])))
    as [res w2]. simpl in *.
  destruct res as [codes|e]; [|left; by eexists _, _].
  assert (heap w2 !! length (heap w) = Some next) as Hl.
  { rewrite Hheap. by apply list_lookup_middle. }
  symmetry in Hres.
  destruct (resolved_shape _ _ Hres) as [->|(i & v & c & ->)].
  - rewrite (update_record_None _ _ _ Hl). left. by eexists _, _.
  - rewrite (update_record_dict _ _ _ i v c Hl).
    unfold writer_write. simpl.
    rewrite list_lookup_insert_eq by (by eapply lookup_lt_Some).
    right. eexists _, _. split; [done|]. split.
    + by exists f001, i, v, c.
    + simpl. by rewrite Hout.
Qed.

Lemma processed_from_step (n count : Z) (len : nat) :
  (count + 1 >=? n) = false ->
  processed_from (Some n) count (S len) =
  S (processed_from (Some n) (count + 1) len).
Proof.
  intros Hlt. rewrite Z.geb_leb in Hlt. apply Z.leb_nle in Hlt.
  unfold processed_from. lia.
Qed.

Lemma processed_from_stop (n count : Z) (len : nat) :
  (count + 1 >=? n) = true -> processed_from (Some n) count (S len) = 1%nat.
Proof.
  intros Hge. apply Z.geb_le in Hge. unfold processed_from. lia.
Qed.

(** The records written by the loop are, in the order of the input, the
    spliced records; a run that is not cut short by an exception writes
    one for each record the cap lets through. *)
Lemma records_loop_spec (num : option Z) (input : list MarcRecord) :
  forall (count : Z) (w : world) (res : result unit) (w' : world),
    records_loop num count input w = (res, w') ->
    exists outs,
      output w' = output w ++ outs /\
      Forall2 written_for (take (length outs) input) outs /\
      (res = Ok tt -> length outs = processed_from num count (length input)).
Proof.
  induction input as [|next rest IH]; intros count w res w' Hrun.
  - injection Hrun as <- <-. exists []. rewrite app_nil_r.
    repeat split; [constructor|]. by destruct num.
  - simpl in Hrun. unfold bind in Hrun.
    destruct (loop_body_spec next w)
      as [(e & w1 & Hbody & Hout) | (out & w1 & Hbody & Hwr & Hout)];
      rewrite Hbody in Hrun.
    + injection Hrun as <- <-. exists []. rewrite app_nil_r.
      repeat split; [done|constructor|done].
    + destruct num as [n|].
      * destruct (count + 1 >=? n) eqn:Hcap.
        -- injection Hrun as <- <-. exists [out].
           repeat split; [done|by repeat constructor|].
           intros _. cbn [length]. by rewrite processed_from_stop.
        -- destruct (IH _ _ _ _ Hrun) as (outs & Houts & Hall & Hlen).
           exists (out :: outs). rewrite Houts, Hout, <- app_assoc.
           repeat split; [by constructor|].
           intros Hok. cbn [length]. rewrite processed_from_step by done.
           f_equal. by apply Hlen.
      * destruct (IH _ _ _ _ Hrun) as (outs & Houts & Hall & Hlen).
        exists (out :: outs). rewrite Houts, Hout, <- app_assoc.
        repeat split; [by constructor|].
        intros Hok. simpl. f_equal. by apply Hlen.
Qed.

(** * The claims *)

Lemma inserted_fields_nonempty (i v c : PyValue) :
  truthy i || truthy v || truthy c = true -> inserted_fields i v c <> [].
Proof.
  unfold inserted_fields.
  destruct (truthy i), (truthy v), (truthy c); simpl; done.
Qed.

Lemma sublist_spliced (pre new post : list field) :
  pre ++ post `sublist_of` pre ++ new ++ post.
Proof. apply sublist_app; [done|]. by apply sublist_inserts_l. Qed.

(** C1. With some code present, [update_record] puts the new fields right
    after the last control field of the record: the field sequence splits
    into [pre], which ends with the last control field, or is empty when
    the record has no control field (insertion at index 0), and [post],
    which has no control field; the fields read from the record after the
    call are [pre ++ new fields ++ post], of which the old sequence is a
    subsequence, so the pre-existing fields keep their relative order. *)
Theorem update_record_splices_after_last_control (l : loc) (w : world)
    (r : MarcRecord) (i v c : PyValue) :
  heap w !! l = Some r ->
  truthy i || truthy v || truthy c = true ->
  exists pre post w' r',
    fields r = pre ++ post /\
    no_control post /\
    (if existsb is_control_field (fields r)
     then ends_with_control pre else pre = []) /\
    inserted_fields i v c <> [] /\
    update_record l (codes_dict i v c) w = (Ok l, w') /\
    heap w' !! l = Some r' /\
    fields r' = pre ++ inserted_fields i v c ++ post /\
    fields r `sublist_of` fields r'.
Proof.
  intros Hl Hsome.
  destruct (splice_point (fields r))
    as (pre & post & Hto & Hfrom & Hsplit & Hpost & Hpre).
  assert (fields (set_fields r (spliced (fields r) i v c)) =
          pre ++ inserted_fields i v c ++ post) as Hfields.
  { simpl. unfold spliced. by rewrite Hto, Hfrom. }
  exists pre, post. eexists _, _.
  split; [done|]. split; [done|]. split; [done|].
  split; [by apply inserted_fields_nonempty|].
  split; [by apply update_record_dict|].
  split; [simpl; apply list_lookup_insert_eq; by eapply lookup_lt_Some|].
  split; [exact Hfields|].
  rewrite Hfields, Hsplit. apply sublist_spliced.
Qed.

(** C2. When the control fields of a record are a leading run of its field
    sequence, they still are after [update_record], whatever the codes
    argument is: the record the call leaves in the store satisfies the
    invariant. *)
Theorem update_record_keeps_control_fields_first (l : loc) (w : world)
    (r : MarcRecord) (codes : PyValue) :
  heap w !! l = Some r ->
  control_fields_lead (fields r) ->
  exists r',
    heap (update_record l codes w).2 !! l = Some r' /\
    control_fields_lead (fields r').
Proof.
  intros Hl Hwf.
  destruct (update_record_cases l codes w r Hl)
    as [(e & ->) | (new & Hnew & ->)]; simpl.
  - by exists r.
  - rewrite list_lookup_insert_eq by (by eapply lookup_lt_Some).
    eexists. split; [done|]. simpl.
    destruct Hwf as (pre & post & Hsplit & Hpre & Hpost).
    rewrite Hsplit.
    destruct (splice_point_leading pre post Hpre Hpost) as [-> ->].
    exists pre, (new ++ post). repeat split; [done|].
    by apply Forall_app.
Qed.

Lemma spliced_same_iff (fs : list field) (i v c : PyValue) :
  spliced fs i v c = fs <-> inserted_fields i v c = [].
Proof.
  unfold spliced. split.
  - intros Heq. apply (f_equal length) in Heq.
    pose proof (f_equal length (slice_to_from fs (last_fixed_index fs + 1)))
      as Hlen.
    rewrite !length_app in Heq, Hlen.
    destruct (inserted_fields i v c); [done|].
    simpl in Heq. rewrite length_app in Heq. lia.
  - intros ->. apply slice_to_from.
Qed.

(** C3, as the code has it. [update_record] returns the reference it was
    given, not a new record: it binds the [fields] of that object to the
    spliced list. All the object's earlier fields are kept, unchanged and
    in their order; its leader and every other object of the store are
    untouched; its field sequence is the same as before exactly when no
    field is inserted. *)
Theorem update_record_rebinds_fields_in_place (l : loc) (w : world)
    (r : MarcRecord) (i v c : PyValue) :
  heap w !! l = Some r ->
  exists r',
    update_record l (codes_dict i v c) w =
    (Ok l, with_heap w (<[l := r']> (heap w))) /\
    leader r' = leader r /\
    fields r' =
      slice_to (fields r) (last_fixed_index (fields r) + 1) ++
      inserted_fields i v c ++
      slice_from (fields r) (last_fixed_index (fields r) + 1) /\
    fields r `sublist_of` fields r' /\
    (fields r' = fields r <-> inserted_fields i v c = []) /\
    (forall l', l' <> l -> <[l := r']> (heap w) !! l' = heap w !! l').
Proof.
  intros Hl. exists (set_fields r (spliced (fields r) i v c)).
  split; [by apply update_record_dict|]. simpl.
  repeat split; try done.
  - unfold spliced.
    rewrite <- (slice_to_from (fields r) (last_fixed_index (fields r) + 1)) at 1.
    apply sublist_spliced.
  - by apply spliced_same_iff.
  - by apply spliced_same_iff.
  - intros l' Hne. by apply list_lookup_insert_ne.
Qed.






(** C5, at the failing input. Given [None] for the codes, [update_record]
    raises a [TypeError] at its first subscript and leaves the record as
    it was. *)
Theorem update_record_None_raises (l : loc) (w : world) (r : MarcRecord) :
  heap w !! l = Some r -> update_record l PyNone w = (Raise TypeError, w).
Proof. apply update_record_None. Qed.

Lemma inserted_expected (isni viaf wkp : option string) :
  inserted_fields (code_value isni) (code_value viaf) (code_value wkp) =
  expected_fields isni viaf wkp.
Proof.
  unfold inserted_fields, expected_fields, when_present.
  destruct isni as [s1|], viaf as [s2|], wkp as [s3|]; simpl;
    repeat match goal with
           | |- context [String.eqb ?s ""] => destruct (String.eqb s "")
           end; reflexivity.
Qed.

Lemma expected_fields_length (isni viaf wkp : option string) :
  (length (expected_fields isni viaf wkp) <= 3)%nat.
Proof.
  unfold expected_fields, when_present.
  destruct isni as [s1|], viaf as [s2|], wkp as [s3|]; simpl;
    repeat match goal with
           | |- context [String.eqb ?s ""] => destruct (String.eqb s "")
           end; simpl; lia.
Qed.

(** C6. For codes that are strings or absent, the fields [update_record]
    builds are those of the specification: at most three data fields, in
    the order ISNI, VIAF, Wikidata, each only for a code that is present
    and not empty, with tag 024 and the indicators and subfields of
    [isni_field], [viaf_field] and [wkp_field]; the fields read from the
    record after the call are the old field sequence with these fields
    between its two slices. *)
Theorem update_record_builds_expected_fields (l : loc) (w : world)
    (r : MarcRecord) (isni viaf wkp : option string) :
  heap w !! l = Some r ->
  exists w' r',
    update_record l
      (codes_dict (code_value isni) (code_value viaf) (code_value wkp)) w =
    (Ok l, w') /\
    heap w' !! l = Some r' /\
    fields r' =
      slice_to (fields r) (last_fixed_index (fields r) + 1) ++
      (match isni with
       | Some s =>
           if String.eqb s "" then []
           else [DataField "024" ["7"; " "]
                   [Subfield "a" s; Subfield "2" "isni"]]
       | None => []
       end ++
       match viaf with
       | Some s =>
           if String.eqb s "" then []
           else [DataField "024" ["7"; " "]
                   [Subfield "a" (String.append "http://viaf.org/viaf/" s);
                    Subfield "2" "uri"]]
       | None => []
       end ++
       match wkp with
       | Some s =>
           if String.eqb s "" then []
           else [DataField "024" ["8"; " "]
                   [Subfield "a"
                      (String.append "https://www.wikidata.org/wiki/" s)]]
       | None => []
       end) ++
      slice_from (fields r) (last_fixed_index (fields r) + 1) /\
    (length (fields r') <= length (fields r) + 3)%nat.
Proof.
  intros Hl. eexists _, _.
  split; [by apply update_record_dict|].
  split; [simpl; apply list_lookup_insert_eq; by eapply lookup_lt_Some|].
  assert (fields (set_fields r (spliced (fields r) (code_value isni)
                                  (code_value viaf) (code_value wkp))) =
          slice_to (fields r) (last_fixed_index (fields r) + 1) ++
          expected_fields isni viaf wkp ++
          slice_from (fields r) (last_fixed_index (fields r) + 1)) as Hfields.
  { simpl. unfold spliced. by rewrite inserted_expected. }
  split; [exact Hfields|].
  rewrite Hfields, !length_app.
  pose proof (expected_fields_length isni viaf wkp) as Hlen.
  pose proof (f_equal length
                (slice_to_from (fields r) (last_fixed_index (fields r) + 1)))
    as Hsum.
  rewrite length_app in Hsum. lia.
Qed.

(** C7. With the three codes absent, [update_record] returns the record
    with the field sequence it had: the world after the call is the world
    before it. *)
Theorem update_record_absent_codes_identity (l : loc) (w : world)
    (r : MarcRecord) :
  heap w !! l = Some r ->
  update_record l (codes_dict PyNone PyNone PyNone) w = (Ok l, w).
Proof.
  intros Hl. rewrite (update_record_dict _ _ _ _ _ _ Hl).
  unfold spliced, inserted_fields. simpl.
  rewrite slice_to_from, set_fields_id. by rewrite with_heap_id.
Qed.

Lemma item0_first_of_array (d : gmap string PyValue) (k : string) :
  absent_or_array d k -> item0_if_present d k = Ok (first_of_array d k).
Proof.
  unfold item0_if_present, first_of_array.
  by intros [-> | (x & rest & ->)].
Qed.

Lemma item0_empty_array (d : gmap string PyValue) (k : string) :
  d !! k = Some (PyList []) -> item0_if_present d k = Raise IndexError.
Proof. unfold item0_if_present. by intros ->. Qed.

(** The dictionary of the three codes, read key by key. *)
Lemma codes_dict_keys (i v c : PyValue) :
  exists codes : gmap string PyValue,
    codes_dict i v c = PyDict codes /\
    codes !! "ISNI" = Some i /\
    codes !! "VIAF" = Some v /\
    codes !! "WKP" = Some c /\
    size codes = 3%nat.
Proof.
  eexists. split; [reflexivity|].
  repeat split; by simplify_map_eq.
Qed.

(** C8, as the code has it. On a 200 answer whose body is a JSON object in
    which "ISNI" and "WKP", where present, are arrays with a first element,
    the resolver returns a dictionary with the three keys "ISNI", "VIAF" and
    "WKP" and no other: at "ISNI" the first element of the array at "ISNI",
    at "VIAF" the value at "viafID", at "WKP" the first element of the array
    at "WKP", and [None] at the key whose source key is missing. *)
Theorem viaf_request_extracts_codes (identifier : string) (w : world)
    (resp : Response) (d : gmap string PyValue) :
  network (viaf_url identifier) = Ok resp ->
  status_code resp = 200 ->
  body_json resp = Some (PyDict d) ->
  absent_or_array d "ISNI" ->
  absent_or_array d "WKP" ->
  exists codes : gmap string PyValue,
    (viaf_request identifier w).1 = Ok (PyDict codes) /\
    codes !! "ISNI" =
      Some (match d !! "ISNI" with
            | Some (PyList (x :: _)) => x
            | _ => PyNone
            end) /\
    codes !! "VIAF" =
      Some (match d !! "viafID" with
            | Some x => x
            | None => PyNone
            end) /\
    codes !! "WKP" =
      Some (match d !! "WKP" with
            | Some (PyList (x :: _)) => x
            | _ => PyNone
            end) /\
    size codes = 3%nat.
Proof.
  intros Hnet Hst Hbody Hisni Hwkp.
  rewrite (viaf_request_dict _ _ _ _ Hnet Hst Hbody).
  rewrite (item0_first_of_array _ _ Hisni), (item0_first_of_array _ _ Hwkp).
  destruct (codes_dict_keys (first_of_array d "ISNI")
              (from_option id PyNone (d !! "viafID"))
              (first_of_array d "WKP"))
    as (codes & -> & Hi & Hv & Hw & Hsize).
  exists codes. simpl. split; [done|]. split; [exact Hi|].
  split; [|by split].
  rewrite Hv. by destruct (d !! "viafID").
Qed.

(** C9. On an answer whose status is not 200, and on a 200 answer whose
    body is not JSON, the resolver raises nothing and returns [None]: no
    codes dictionary, none of the three keys. *)
Theorem viaf_request_failure_returns_None (identifier : string) (w : world)
    (resp : Response) :
  network (viaf_url identifier) = Ok resp ->
  status_code resp <> 200 \/ body_json resp = None ->
  (viaf_request identifier w).1 = Ok PyNone /\
  (forall k, py_getitem PyNone k = Raise TypeError).
Proof.
  intros Hnet Hfail. split; [|done].
  unfold viaf_request, requests_get, try_except, print, Response_json,
    bind, lift, ret.
  rewrite Hnet.
  destruct (status_code resp =? 200) eqn:Hst.
  - destruct Hfail as [Hne | ->]; [|done].
    by apply Z.eqb_eq in Hst.
  - done.
Qed.

(** C10. On a 200 answer whose body is a JSON object with an empty array
    at "ISNI" or at "WKP", the resolver raises an exception that its
    [except ValueError] does not catch; it is the [IndexError] of the
    subscript [[0]] when "ISNI" is that empty array, is missing or is an
    array with a first element. *)
Theorem viaf_request_empty_array_raises (identifier : string) (w : world)
    (resp : Response) (d : gmap string PyValue) :
  network (viaf_url identifier) = Ok resp ->
  status_code resp = 200 ->
  body_json resp = Some (PyDict d) ->
  d !! "ISNI" = Some (PyList []) \/ d !! "WKP" = Some (PyList []) ->
  exists e,
    (viaf_request identifier w).1 = Raise e /\
    is_ValueError e = false /\
    (d !! "ISNI" = Some (PyList []) \/ absent_or_array d "ISNI" ->
     e = IndexError).
Proof.
  intros Hnet Hst Hbody Hempty.
  rewrite (viaf_request_dict _ _ _ _ Hnet Hst Hbody). simpl.
  destruct (item0_if_present d "ISNI") as [isni|e] eqn:Hisni.
  - destruct Hempty as [Hi | Hw].
    + by rewrite (item0_empty_array _ _ Hi) in Hisni.
    + rewrite (item0_empty_array _ _ Hw). by exists IndexError.
  - exists e. repeat split.
    + unfold item0_if_present in Hisni.
      destruct (d !! "ISNI"); [|done].
      by apply (py_item0_not_ValueError _ _ Hisni).
    + intros [Hi | Ha].
      * rewrite (item0_empty_array _ _ Hi) in Hisni. by injection Hisni.
      * by rewrite (item0_first_of_array _ _ Ha) in Hisni.
Qed.

End Program.

(** * The claims at concrete inputs *)

(** C3 as the specification words it fails: after the call the object that
    was passed in has five fields in place of its two, and the reference
    returned is the one that was passed. *)
Lemma update_record_changes_its_input :
  heap sample_world !! 0%nat = Some sample_record /\
  exists w' r',
    update_record str_unused 0%nat sample_codes sample_world = (Ok 0%nat, w') /\
    heap w' !! 0%nat = Some r' /\
    fields r' <> fields sample_record /\
    fields r' =
      [ControlField "001" "a11111";
       DataField "024" ["7"; " "]
         [Subfield "a" "0000000123456789"; Subfield "2" "isni"];
       DataField "024" ["7"; " "]
         [Subfield "a" "http://viaf.org/viaf/12345"; Subfield "2" "uri"];
       DataField "024" ["8"; " "]
         [Subfield "a" "https://www.wikidata.org/wiki/Q42"];
       DataField "100" ["1"; " "] [Subfield "a" "Tammsaare, A. H."]].
Proof.
  split; [reflexivity|].
  eexists _, _. split; [vm_compute; reflexivity|].
  split; [reflexivity|]. split; [|reflexivity].
  vm_compute. intros Heq. discriminate Heq.
Qed.


Lemma update_record_splices_after_last_control_witness :
  heap sample_world !! 0%nat = Some sample_record /\
  exists pre post w' r',
    fields sample_record = pre ++ post /\
    no_control post /\
    (if existsb is_control_field (fields sample_record)
     then ends_with_control pre else pre = []) /\
    inserted_fields str_unused PyNone (PyStr "12345") PyNone <> [] /\
    update_record str_unused 0%nat
      (codes_dict PyNone (PyStr "12345") PyNone) sample_world = (Ok 0%nat, w') /\
    heap w' !! 0%nat = Some r' /\
    fields r' =
      pre ++ inserted_fields str_unused PyNone (PyStr "12345") PyNone ++ post /\
    fields sample_record `sublist_of` fields r'.
Proof.
  split; [reflexivity|].
  apply (update_record_splices_after_last_control str_unused 0%nat
           sample_world sample_record PyNone (PyStr "12345") PyNone);
    reflexivity.
Defined.

Lemma update_record_keeps_control_fields_first_witness :
  control_fields_lead (fields sample_record) /\
  exists r',
    heap (update_record str_unused 0%nat sample_codes sample_world).2 !! 0%nat
    = Some r' /\
    control_fields_lead (fields r').
Proof.
  assert (control_fields_lead (fields sample_record)) as Hlead.
  { exists [ControlField "001" "a11111"],
      [DataField "100" ["1"; " "] [Subfield "a" "Tammsaare, A. H."]].
    split; [reflexivity|].
    split; repeat constructor. }
  split; [exact Hlead|].
  apply (update_record_keeps_control_fields_first str_unused 0%nat
           sample_world sample_record sample_codes);
    [reflexivity | exact Hlead].
Defined.

Lemma update_record_rebinds_fields_in_place_witness :
  exists r',
    update_record str_unused 0%nat sample_codes sample_world =
    (Ok 0%nat, with_heap sample_world (<[0%nat := r']> (heap sample_world))) /\
    leader r' = leader sample_record /\
    fields r' =
      slice_to (fields sample_record)
        (last_fixed_index (fields sample_record) + 1) ++
      inserted_fields str_unused (PyStr "0000000123456789") (PyStr "12345")
        (PyStr "Q42") ++
      slice_from (fields sample_record)
        (last_fixed_index (fields sample_record) + 1) /\
    fields sample_record `sublist_of` fields r' /\
    (fields r' = fields sample_record <->
     inserted_fields str_unused (PyStr "0000000123456789") (PyStr "12345")
       (PyStr "Q42") = []) /\
    (forall l', l' <> 0%nat ->
                <[0%nat := r']> (heap sample_world) !! l' = heap sample_world !! l').
Proof.
  apply (update_record_rebinds_fields_in_place str_unused 0%nat sample_world
           sample_record (PyStr "0000000123456789") (PyStr "12345")
           (PyStr "Q42")).
  reflexivity.
Defined.


Lemma update_record_None_raises_witness :
  heap sample_world !! 0%nat = Some sample_record /\
  update_record str_unused 0%nat PyNone sample_world =
  (Raise TypeError, sample_world).
Proof.
  split; [reflexivity|].
  apply (update_record_None_raises str_unused 0%nat sample_world sample_record).
  reflexivity.
Defined.

(** The scenario of the specification: the three codes present, a record
    with the control field 001 and one variable field. *)
Lemma update_record_builds_expected_fields_witness :
  exists w' r',
    update_record str_unused 0%nat
      (codes_dict (PyStr "0000000123456789") (PyStr "12345") (PyStr "Q42"))
      sample_world = (Ok 0%nat, w') /\
    heap w' !! 0%nat = Some r' /\
    fields r' =
      [ControlField "001" "a11111";
       DataField "024" ["7"; " "]
         [Subfield "a" "0000000123456789"; Subfield "2" "isni"];
       DataField "024" ["7"; " "]
         [Subfield "a" "http://viaf.org/viaf/12345"; Subfield "2" "uri"];
       DataField "024" ["8"; " "]
         [Subfield "a" "https://www.wikidata.org/wiki/Q42"];
       DataField "100" ["1"; " "] [Subfield "a" "Tammsaare, A. H."]] /\
    (length (fields r') <= length (fields sample_record) + 3)%nat.
Proof.
  exact (update_record_builds_expected_fields str_unused 0%nat
           sample_world sample_record (Some "0000000123456789"%string)
           (Some "12345"%string) (Some "Q42"%string) eq_refl).
Defined.

Lemma update_record_absent_codes_identity_witness :
  heap sample_world !! 0%nat = Some sample_record /\
  update_record str_unused 0%nat (codes_dict PyNone PyNone PyNone) sample_world =
  (Ok 0%nat, sample_world).
Proof.
  split; [reflexivity|].
  apply (update_record_absent_codes_identity str_unused 0%nat sample_world
           sample_record).
  reflexivity.
Defined.

(** The scenario of the specification: a 200 answer with the body
    [{"viafID": "999"}]. *)
Lemma viaf_request_extracts_codes_witness :
  exists codes : gmap string PyValue,
    (viaf_request answer_viaf_only "a11111" empty_world).1 = Ok (PyDict codes) /\
    codes !! "ISNI" = Some PyNone /\
    codes !! "VIAF" = Some (PyStr "999") /\
    codes !! "WKP" = Some PyNone /\
    size codes = 3%nat.
Proof.
  exact (viaf_request_extracts_codes answer_viaf_only "a11111" empty_world
           {| status_code := 200;
              body_json := Some (PyDict {[ "viafID" := PyStr "999" ]}) |}
           {[ "viafID" := PyStr "999" ]}
           eq_refl eq_refl eq_refl (or_introl eq_refl) (or_introl eq_refl)).
Defined.

(** C8 as the specification words it fails: the answer is a 200 whose body,
    [{"viafID": "999", "WKP": []}], parses as a JSON object, and the
    resolver returns no codes at all: it raises [IndexError]. *)
Lemma viaf_request_object_body_without_result :
  answer_empty_wkp (viaf_url "a11111") =
  Ok {| status_code := 200;
        body_json :=
          Some (PyDict (<["viafID" := PyStr "999"]> {[ "WKP" := PyList [] ]})) |} /\
  (viaf_request answer_empty_wkp "a11111" empty_world).1 = Raise IndexError /\
  (forall codes,
      (viaf_request answer_empty_wkp "a11111" empty_world).1 <> Ok codes).
Proof.
  split; [reflexivity|].
  assert ((viaf_request answer_empty_wkp "a11111" empty_world).1 =
          Raise IndexError) as Hraise by (vm_compute; reflexivity).
  split; [exact Hraise|]. intros codes. rewrite Hraise. discriminate.
Qed.

(** The scenario of the specification: an answer with the status 404. *)
Lemma viaf_request_failure_returns_None_witness :
  (viaf_request answer_404 "a11111" empty_world).1 = Ok PyNone /\
  (forall k, py_getitem PyNone k = Raise TypeError).
Proof.
  apply (viaf_request_failure_returns_None answer_404 "a11111" empty_world
           {| status_code := 404; body_json := None |}).
  - reflexivity.
  - left. simpl. lia.
Defined.

Lemma viaf_request_empty_array_raises_witness :
  exists e,
    (viaf_request answer_empty_isni "a11111" empty_world).1 = Raise e /\
    is_ValueError e = false /\
    (({[ "ISNI" := PyList [] ]} : gmap string PyValue) !! "ISNI"
     = Some (PyList []) \/
     absent_or_array {[ "ISNI" := PyList [] ]} "ISNI" ->
     e = IndexError).
Proof.
  apply (viaf_request_empty_array_raises answer_empty_isni "a11111" empty_world
           {| status_code := 200;
              body_json := Some (PyDict {[ "ISNI" := PyList [] ]}) |}
           {[ "ISNI" := PyList [] ]}).
  - reflexivity.
  - reflexivity.
  - reflexivity.
  - left. reflexivity.
Defined.

(** * Further runs *)

(** A record without control fields: the new field goes to index 0. *)
Example update_record_no_control_field :
  update_record str_unused 0%nat (codes_dict PyNone (PyStr "12345") PyNone)
    (with_heap empty_world [sample_record_no_control]) =
  (Ok 0%nat,
   with_heap empty_world
     [set_fields sample_record_no_control
        [DataField "024" ["7"; " "]
           [Subfield "a" "http://viaf.org/viaf/12345"; Subfield "2" "uri"];
         DataField "100" ["1"; " "] [Subfield "a" "Tammsaare, A. H."]]]).
Proof. vm_compute. reflexivity. Qed.

(** Splicing twice inserts the fields twice. *)
Example update_record_twice :
  exists w1 w2 r2,
    update_record str_unused 0%nat (codes_dict PyNone (PyStr "12345") PyNone)
      sample_world = (Ok 0%nat, w1) /\
    update_record str_unused 0%nat (codes_dict PyNone (PyStr "12345") PyNone)
      w1 = (Ok 0%nat, w2) /\
    heap w2 !! 0%nat = Some r2 /\
    fields r2 =
      [ControlField "001" "a11111";
       DataField "024" ["7"; " "]
         [Subfield "a" "http://viaf.org/viaf/12345"; Subfield "2" "uri"];
       DataField "024" ["7"; " "]
         [Subfield "a" "http://viaf.org/viaf/12345"; Subfield "2" "uri"];
       DataField "100" ["1"; " "] [Subfield "a" "Tammsaare, A. H."]].
Proof.
  eexists _, _, _. split; [vm_compute; reflexivity|].
  split; [vm_compute; reflexivity|]. split; reflexivity.
Qed.

(** A 200 answer whose body is not JSON: the message is printed and [None]
    returned. *)
Example viaf_request_malformed_body :
  viaf_request answer_malformed "a11111" empty_world =
  (Ok PyNone,
   {| heap := []; stdout := [Msg_parse_error]; output := [];
      requests := [viaf_url "a11111"] |}).
Proof. reflexivity. Qed.

(** An empty array at "WKP" next to a "viafID": [IndexError]. *)
Example viaf_request_empty_wkp :
  (viaf_request answer_empty_wkp "a11111" empty_world).1 = Raise IndexError.
Proof. vm_compute. reflexivity. Qed.

(** With a service that answers 404 the resolver returns [None], the driver
    passes it to [update_record], and the run ends with the [TypeError]
    before anything is written. *)
Example process_marc_records_404 :
  process_marc_records str_unused answer_404 [sample_record] None empty_world =
  (Raise TypeError,
   {| heap := [sample_record];
      stdout := [Msg_data_loaded; Msg_request_failed 404];
      output := [];
      requests := [viaf_url "a11111"] |}).
Proof. vm_compute. reflexivity. Qed.

(** With [max_records = 2] and five records, two are written and two
    lookups made. *)
Example process_marc_records_cap :
  exists w',
    process_marc_records str_unused answer_viaf_only
      [sample_record; sample_record; sample_record; sample_record; sample_record]
      (Some 2) empty_world = (Ok tt, w') /\
    length (output w') = 2%nat /\ length (requests w') = 2%nat.
Proof. eexists. split; [vm_compute; reflexivity|]. split; reflexivity. Qed.

(** * More on the three functions *)

Section More.

Variable py_str : PyValue -> string.
Variable network : string -> result Response.

(** ** The splicer *)

Lemma splice_point_at (pre rest : list field) :
  pre = [] \/ ends_with_control pre -> no_control rest ->
  slice_to (pre ++ rest) (last_fixed_index (pre ++ rest) + 1) = pre /\
  slice_from (pre ++ rest) (last_fixed_index (pre ++ rest) + 1) = rest.
Proof.
  intros [-> | (front & cf & -> & Hcf)] Hrest.
  - simpl. rewrite last_fixed_index_none by done.
    pose proof (slice_to_app [] rest) as Hto.
    pose proof (slice_from_app [] rest) as Hfrom.
    simpl in Hto, Hfrom. change (-1 + 1) with (Z.of_nat 0).
    by rewrite Hto, Hfrom.
  - rewrite <- app_assoc. simpl.
    rewrite last_fixed_index_last by done.
    replace (Z.of_nat (length front) + 1)
      with (Z.of_nat (length (front ++ [cf])))
      by (rewrite length_app; simpl; lia).
    replace (front ++ cf :: rest) with ((front ++ [cf]) ++ rest)
      by (by rewrite <- app_assoc).
    by rewrite slice_to_app, slice_from_app.
Qed.

(** A second splice goes in at the same index, in front of the fields of
    the first. *)
Lemma spliced_spliced (fs : list field) (i v c i' v' c' : PyValue) :
  spliced py_str (spliced py_str fs i v c) i' v' c' =
  slice_to fs (last_fixed_index fs + 1) ++
  inserted_fields py_str i' v' c' ++ inserted_fields py_str i v c ++
  slice_from fs (last_fixed_index fs + 1).
Proof.
  destruct (splice_point fs)
    as (pre & post & Hto & Hfrom & Hsplit & Hpost & Hpre).
  unfold spliced at 2. rewrite Hto, Hfrom.
  assert (pre = [] \/ ends_with_control pre) as Hpre'.
  { destruct (existsb is_control_field fs); [by right|by left]. }
  assert (no_control (inserted_fields py_str i v c ++ post)) as Hrest.
  { apply Forall_app. split; [apply no_control_inserted|done]. }
  unfold spliced.
  by destruct (splice_point_at pre _ Hpre' Hrest) as [-> ->].
Qed.

Lemma lookup_updated (l : loc) (h : list MarcRecord) (r r' : MarcRecord) :
  h !! l = Some r -> <[l := r']> h !! l = Some r'.
Proof. intros Hl. apply list_lookup_insert_eq. by eapply lookup_lt_Some. Qed.

(** X1. [update_record] is not idempotent: a second call on the same record
    inserts its fields again, at the same index, so that they come in front
    of the fields of the first call; with the same codes the new fields are
    there twice. *)
Theorem update_record_twice_inserts_twice (l : loc) (w : world)
    (r : MarcRecord) (i v c i' v' c' : PyValue) :
  heap w !! l = Some r ->
  exists w1 w2 r2,
    update_record py_str l (codes_dict i v c) w = (Ok l, w1) /\
    update_record py_str l (codes_dict i' v' c') w1 = (Ok l, w2) /\
    heap w2 !! l = Some r2 /\
    fields r2 =
      slice_to (fields r) (last_fixed_index (fields r) + 1) ++
      inserted_fields py_str i' v' c' ++ inserted_fields py_str i v c ++
      slice_from (fields r) (last_fixed_index (fields r) + 1).
Proof.
  intros Hl.
  pose proof (update_record_dict py_str l w r i v c Hl) as H1.
  set (r1 := set_fields r (spliced py_str (fields r) i v c)) in *.
  set (w1 := with_heap w (<[l := r1]> (heap w))) in *.
  assert (heap w1 !! l = Some r1) as Hl1 by (by eapply lookup_updated).
  pose proof (update_record_dict py_str l w1 r1 i' v' c' Hl1) as H2.
  eexists w1, _, _. split; [exact H1|]. split; [exact H2|].
  split; [by eapply lookup_updated|].
  simpl. apply spliced_spliced.
Qed.

(** X2. A code that is false in a test, the empty string as well as [None],
    counts as absent: when none of the three values is true, [update_record]
    returns the record and leaves the world as it was. *)
Theorem update_record_falsy_codes_identity (l : loc) (w : world)
    (r : MarcRecord) (i v c : PyValue) :
  heap w !! l = Some r ->
  truthy i = false -> truthy v = false -> truthy c = false ->
  update_record py_str l (codes_dict i v c) w = (Ok l, w).
Proof.
  intros Hl Hi Hv Hc. rewrite (update_record_dict _ _ _ _ _ _ _ Hl).
  unfold spliced, inserted_fields. rewrite Hi, Hv, Hc. simpl.
  rewrite slice_to_from, set_fields_id. by rewrite with_heap_id.
Qed.

(** X3. [update_record] is all or nothing: the assignment to [record.fields]
    is its last step, so whenever it raises, whatever the codes argument,
    the world is as it was before the call. *)
Theorem update_record_raise_leaves_world (l : loc) (codes : PyValue)
    (w w' : world) (e : exn) :
  update_record py_str l codes w = (Raise e, w') -> w' = w.
Proof.
  destruct (heap w !! l) as [r|] eqn:Hl.
  - destruct (update_record_cases py_str l codes w r Hl)
      as [(e0 & ->) | (new & _ & ->)]; by intros [= ].
  - unfold update_record, bind, deref. rewrite Hl. by intros [= ].
Qed.

(** X4. A codes dictionary that lacks one of the keys "ISNI", "VIAF", "WKP"
    makes [update_record] raise [KeyError], and the record stays as it was,
    also when the codes before the missing key are present. *)
Theorem update_record_missing_key (l : loc) (w : world) (r : MarcRecord)
    (d : gmap string PyValue) :
  heap w !! l = Some r ->
  d !! "ISNI" = None \/ d !! "VIAF" = None \/ d !! "WKP" = None ->
  update_record py_str l (PyDict d) w = (Raise KeyError, w).
Proof.
  intros Hl Hmiss.
  unfold update_record, bind, deref, lift, ret. rewrite Hl. simpl.
  destruct (d !! "ISNI") as [i|]; [|done].
  destruct (d !! "VIAF") as [v|]; [|by destruct (truthy i)].
  destruct (d !! "WKP") as [c|]; [|by destruct (truthy i), (truthy v)].
  by destruct Hmiss as [? | [? | ?]].
Qed.

Lemma inserted_fields_length (i v c : PyValue) :
  length (inserted_fields py_str i v c) = truthy_count i v c.
Proof.
  unfold inserted_fields, truthy_count.
  by destruct (truthy i), (truthy v), (truthy c).
Qed.

(** X5. After [update_record] the record has as many fields more as there
    are codes that count, three at most. *)
Theorem update_record_field_count (l : loc) (w : world) (r : MarcRecord)
    (i v c : PyValue) :
  heap w !! l = Some r ->
  exists r',
    heap (update_record py_str l (codes_dict i v c) w).2 !! l = Some r' /\
    length (fields r') = (length (fields r) + truthy_count i v c)%nat /\
    (truthy_count i v c <= 3)%nat.
Proof.
  intros Hl. rewrite (update_record_dict _ _ _ _ _ _ _ Hl). simpl.
  eexists. split; [by eapply lookup_updated|]. split.
  - simpl. unfold spliced. rewrite !length_app, inserted_fields_length.
    pose proof (f_equal length
                  (slice_to_from (fields r) (last_fixed_index (fields r) + 1)))
      as Hlen.
    rewrite length_app in Hlen. lia.
  - unfold truthy_count. destruct (truthy i), (truthy v), (truthy c); simpl; lia.
Qed.

Lemma find_skips {A} (p : A -> bool) (pre new post : list A) :
  Forall (fun x => p x = false) new ->
  find p (pre ++ new ++ post) = find p (pre ++ post).
Proof.
  intros Hnew. induction pre as [|x pre IH]; simpl.
  - induction Hnew as [|y new Hy _ IH]; simpl; [done|]. by rewrite Hy.
  - by rewrite IH.
Qed.

Lemma inserted_fields_tag (i v c : PyValue) :
  Forall (fun f => field_tag f = "024"%string) (inserted_fields py_str i v c).
Proof.
  unfold inserted_fields.
  destruct (truthy i), (truthy v), (truthy c); simpl; repeat constructor.
Qed.

(** X6. [update_record] does not change what [record[tag]] gives for a tag
    other than 024: the first field with that tag, or the [KeyError], is the
    same after the call; so the 001 field the driver reads its identifier
    from is still the one found. *)
Theorem update_record_keeps_other_tags (l : loc) (w : world) (r : MarcRecord)
    (i v c : PyValue) (tag : string) :
  heap w !! l = Some r ->
  tag <> "024"%string ->
  exists r',
    heap (update_record py_str l (codes_dict i v c) w).2 !! l = Some r' /\
    Record_getitem r' tag = Record_getitem r tag.
Proof.
  intros Hl Htag. rewrite (update_record_dict _ _ _ _ _ _ _ Hl). simpl.
  eexists. split; [by eapply lookup_updated|].
  unfold Record_getitem, spliced. simpl.
  rewrite find_skips.
  - by rewrite slice_to_from.
  - eapply Forall_impl; [apply inserted_fields_tag|].
    intros f ->. apply String.eqb_neq. congruence.
Qed.

Lemma filter_no_control (fs : list field) :
  no_control fs -> List.filter is_control_field fs = [].
Proof. induction 1 as [|f fs Hf _ IH]; simpl; [done|]. by rewrite Hf. Qed.

(** X7. [update_record] never adds, drops or reorders a control field: the
    control fields of the record, in their order, are the same after the
    call as before, whatever the codes argument. *)
Theorem update_record_keeps_control_fields (l : loc) (w : world)
    (r : MarcRecord) (codes : PyValue) :
  heap w !! l = Some r ->
  exists r',
    heap (update_record py_str l codes w).2 !! l = Some r' /\
    List.filter is_control_field (fields r') =
    List.filter is_control_field (fields r).
Proof.
  intros Hl.
  destruct (update_record_cases py_str l codes w r Hl)
    as [(e & ->) | (new & Hnew & ->)]; simpl.
  - by exists r.
  - eexists. split; [by eapply lookup_updated|]. simpl.
    rewrite !List.filter_app, (filter_no_control new Hnew). simpl.
    rewrite <- List.filter_app. by rewrite slice_to_from.
Qed.

(** ** The resolver *)

(** X8. [viaf_request] does not catch what [requests.get] raises, the call
    being outside its [try]: a transport error comes out of the resolver as
    it is, after the request is counted and with nothing printed. *)
Theorem viaf_request_transport_error (identifier : string) (w : world)
    (e : exn) :
  network (viaf_url identifier) = Raise e ->
  viaf_request network identifier w =
  (Raise e, with_requests w (requests w ++ [viaf_url identifier])).
Proof.
  intros Hnet. unfold viaf_request, bind, requests_get. by rewrite Hnet.
Qed.

Ltac resolver_cases :=
  repeat (simpl;
          match goal with
          | |- context [network ?u] => destruct (network u) as [?|?]
          | |- context [status_code ?r =? 200] =>
              destruct (status_code r =? 200)
          | |- context [body_json ?r] => destruct (body_json r) as [?|]
          | |- context [py_in ?k ?v] => destruct (py_in k v) as [[|]|?]
          | |- context [py_get ?v ?k ?d] => destruct (py_get v k d) as [?|?]
          | |- context [py_item0 ?v] => destruct (py_item0 v) as [?|?]
          | |- context [is_ValueError ?e] => destruct (is_ValueError e)
          end);
  simpl.

(** X9. Each call of [viaf_request] makes one request, to the URL of the
    identifier, and touches neither the records nor the output; it prints
    one line exactly when it returns [None], and nothing when it returns the
    codes or raises. *)
Theorem viaf_request_effects (identifier : string) (w : world) :
  heap (viaf_request network identifier w).2 = heap w /\
  output (viaf_request network identifier w).2 = output w /\
  requests (viaf_request network identifier w).2 =
    requests w ++ [viaf_url identifier] /\
  exists msgs,
    stdout (viaf_request network identifier w).2 = stdout w ++ msgs /\
    length msgs =
      if returns_None (viaf_request network identifier w).1 then 1%nat
      else 0%nat.
Proof.
  unfold viaf_request, first_if_present, value_if_present,
    requests_get, try_except, print, Response_json, bind, lift, ret.
  resolver_cases; repeat split;
    first [ by (eexists [_]) | by (exists []; rewrite app_nil_r) ].
Qed.

(** X10. When the value at "ISNI" is a string and not an array, the
    subscript [[0]] takes its first character: the value at "ISNI" of the
    dictionary returned is that one character, its first byte with the
    bytes that continue it. *)
Theorem viaf_request_string_value (identifier : string) (w : world)
    (resp : Response) (d : gmap string PyValue) (ch : ascii) (rest : string) :
  network (viaf_url identifier) = Ok resp ->
  status_code resp = 200 ->
  body_json resp = Some (PyDict d) ->
  d !! "ISNI" = Some (PyStr (String ch rest)) ->
  absent_or_array d "WKP" ->
  exists codes : gmap string PyValue,
    (viaf_request network identifier w).1 = Ok (PyDict codes) /\
    codes !! "ISNI" =
      Some (PyStr (String ch (str_take (utf8_width ch - 1) rest))).
Proof.
  intros Hnet Hst Hbody Hisni Hwkp.
  rewrite (viaf_request_dict _ _ _ _ _ Hnet Hst Hbody).
  rewrite (item0_first_of_array _ _ Hwkp).
  unfold item0_if_present. rewrite Hisni. simpl.
  destruct (codes_dict_keys (PyStr (first_char ch rest))
              (from_option id PyNone (d !! "viafID"))
              (first_of_array d "WKP"))
    as (codes & -> & Hi & _).
  by exists codes.
Qed.

(** X11. A 200 answer whose body is JSON but a number, a boolean or [null]
    makes the resolver raise [TypeError] at the first membership test; the
    [except ValueError] does not catch it. *)
Theorem viaf_request_scalar_body (identifier : string) (w : world)
    (resp : Response) (v : PyValue) :
  network (viaf_url identifier) = Ok resp ->
  status_code resp = 200 ->
  body_json resp = Some v ->
  is_scalar v = true ->
  (viaf_request network identifier w).1 = Raise TypeError.
Proof.
  intros Hnet Hst Hbody Hv.
  unfold viaf_request, first_if_present, requests_get, try_except,
    Response_json, bind, lift.
  rewrite Hnet, Hst, Hbody. by destruct v.
Qed.

Lemma py_in_list_false (k : string) (items : list PyValue) :
  PyStr k ∉ items -> py_in k (PyList items) = Ok false.
Proof.
  intros Hk. simpl. f_equal.
  induction items as [|x items IH]; [done|].
  apply not_elem_of_cons in Hk as [Hx Hk]. simpl.
  rewrite (IH Hk), orb_false_r.
  destruct x; try done. apply String.eqb_neq. congruence.
Qed.

(** X12. A 200 answer whose body is a JSON array is taken for an answer
    without codes: when none of its elements is the string "ISNI", "viafID"
    or "WKP", the resolver returns a dictionary with the three keys "ISNI",
    "VIAF" and "WKP" and no other, with [None] at each. *)
Theorem viaf_request_array_body (identifier : string) (w : world)
    (resp : Response) (items : list PyValue) :
  network (viaf_url identifier) = Ok resp ->
  status_code resp = 200 ->
  body_json resp = Some (PyList items) ->
  PyStr "ISNI" ∉ items -> PyStr "viafID" ∉ items -> PyStr "WKP" ∉ items ->
  exists codes : gmap string PyValue,
    (viaf_request network identifier w).1 = Ok (PyDict codes) /\
    codes !! "ISNI" = Some PyNone /\
    codes !! "VIAF" = Some PyNone /\
    codes !! "WKP" = Some PyNone /\
    size codes = 3%nat.
Proof.
  intros Hnet Hst Hbody Hi Hv Hw.
  destruct (codes_dict_keys PyNone PyNone PyNone) as (codes & Hcodes & Hkeys).
  exists codes. split; [|exact Hkeys]. rewrite <- Hcodes.
  unfold viaf_request, first_if_present, value_if_present, requests_get,
    try_except, Response_json, bind, lift, ret.
  rewrite Hnet, Hst, Hbody.
  by rewrite (py_in_list_false _ _ Hi), (py_in_list_false _ _ Hv),
    (py_in_list_false _ _ Hw).
Qed.

(** X13. The resolver and the splicer together: whatever [viaf_request]
    returns without raising, [update_record] on it raises only when it is
    [None], and then a [TypeError]; a dictionary from the resolver always
    has the three keys, so the splice goes through. *)
Theorem update_record_after_viaf_request (identifier : string) (l : loc)
    (w w1 : world) (codes : PyValue) (r : MarcRecord) :
  viaf_request network identifier w = (Ok codes, w1) ->
  heap w1 !! l = Some r ->
  (update_record py_str l codes w1).1 =
  if is_None codes then Raise TypeError else Ok l.
Proof.
  intros Hreq Hl.
  destruct (viaf_request_run network identifier w) as (Hres & _).
  rewrite Hreq in Hres. simpl in Hres. symmetry in Hres.
  destruct (resolved_shape _ _ _ Hres) as [-> | (i & v & c & ->)].
  - by rewrite (update_record_None _ _ _ _ Hl).
  - by rewrite (update_record_dict _ _ _ _ _ _ _ Hl).
Qed.

(** ** The driver *)

Lemma getitem_missing (r : MarcRecord) (tag : string) :
  Forall (fun f => field_tag f <> tag) (fields r) ->
  Record_getitem r tag = Raise KeyError.
Proof.
  unfold Record_getitem. intros Hno.
  induction Hno as [|f fs Hf _ IH]; simpl; [done|].
  apply String.eqb_neq in Hf. by rewrite Hf.
Qed.

Lemma viaf_request_failed (identifier : string) (w : world) (resp : Response) :
  network (viaf_url identifier) = Ok resp ->
  status_code resp <> 200 \/ body_json resp = None ->
  exists w',
    viaf_request network identifier w = (Ok PyNone, w') /\
    heap w' = heap w /\ output w' = output w.
Proof.
  intros Hnet Hfail.
  unfold viaf_request, requests_get, try_except, print, Response_json,
    bind, lift, ret.
  rewrite Hnet.
  destruct (status_code resp =? 200) eqn:Hst.
  - destruct Hfail as [Hne | ->]; [by apply Z.eqb_eq in Hst|].
    by eexists.
  - by eexists.
Qed.

(** What one turn of the loop does to the store and to the requests. *)
Lemma loop_body_effects (next : MarcRecord) (w w' : world) (res : result unit) :
  loop_body py_str network next w = (res, w') ->
  exists x urls,
    heap w' = heap w ++ [x] /\
    requests w' = requests w ++ urls /\
    (length urls <= 1)%nat /\
    (res = Ok tt -> length urls = 1%nat).
Proof.
  unfold loop_body, bind, reader_next, deref, lift. simpl.
  rewrite list_lookup_middle by done.
  destruct (Record_getitem next "001") as [f001|e] eqn:H001.
  2:{ intros [= <- <-]. exists next, []. simpl. rewrite app_nil_r.
      repeat split; try done; lia. }
  destruct (viaf_request_run network (Field_value f001)
              (with_heap w (heap w ++ [next]))) as (Hres & Hheap & _ & Hreq).
  destruct (viaf_request network (Field_value f001)
              (with_heap w (heap w ++ [next]))) as [res2 w2].
  simpl in Hres, Hheap, Hreq.
  destruct res2 as [codes|e].
  2:{ intros [= <- <-]. exists next, [viaf_url (Field_value f001)].
      repeat split; done. }
  assert (heap w2 !! length (heap w) = Some next) as Hl.
  { rewrite Hheap. by apply list_lookup_middle. }
  symmetry in Hres.
  destruct (resolved_shape _ _ _ Hres) as [->|(i & v & c & ->)].
  - rewrite (update_record_None _ _ _ _ Hl). intros [= <- <-].
    exists next, [viaf_url (Field_value f001)]. repeat split; done.
  - rewrite (update_record_dict _ _ _ _ i v c Hl).
    unfold writer_write. simpl.
    rewrite list_lookup_insert_eq by (by eapply lookup_lt_Some).
    intros [= <- <-]. simpl.
    eexists _, [viaf_url (Field_value f001)].
    split; [|done].
    rewrite Hheap, insert_app_r_alt by done.
    by rewrite Nat.sub_diag.
Qed.

(** The store and the requests over the whole loop: one object for each
    record read, at most one request for each, and exactly one when the loop
    ends without an exception. *)
Lemma records_loop_effects (num : option Z) (input : list MarcRecord) :
  forall (count : Z) (w : world) (res : result unit) (w' : world),
    records_loop py_str network num count input w = (res, w') ->
    exists xs urls,
      heap w' = heap w ++ xs /\
      requests w' = requests w ++ urls /\
      (length xs <= length input)%nat /\
      (length urls <= length xs)%nat /\
      (res = Ok tt ->
       length xs = processed_from num count (length input) /\
       length urls = length xs).
Proof.
  induction input as [|next rest IH]; intros count w res w' Hrun.
  - injection Hrun as <- <-. exists [], []. rewrite !app_nil_r.
    repeat split; try done. by destruct num.
  - simpl in Hrun. unfold bind in Hrun.
    destruct (loop_body py_str network next w) as [res1 w1] eqn:Hbody.
    destruct (loop_body_effects _ _ _ _ Hbody)
      as (x & urls1 & Hheap1 & Hreq1 & Hle1 & Hok1).
    cbn [length].
    destruct res1 as [[]|e].
    2:{ injection Hrun as <- <-. exists [x], urls1.
        repeat split; simpl; try done; lia. }
    specialize (Hok1 eq_refl).
    destruct (match num with
              | Some n => count + 1 >=? n
              | None => false
              end) eqn:Hcap.
    + injection Hrun as <- <-. exists [x], urls1.
      repeat split; simpl; try done; try lia.
      destruct num as [n|]; [|done]. by rewrite processed_from_stop.
    + destruct (IH _ _ _ _ Hrun) as (xs & urls & Hh & Hr & Hlx & Hlu & Hok).
      exists (x :: xs), (urls1 ++ urls).
      rewrite Hh, Hr, Hheap1, Hreq1, <- !app_assoc, length_app. simpl.
      repeat split; try done; try lia.
      * destruct (Hok H) as [Hn _].
        destruct num as [n|]; [|by rewrite Hn].
        rewrite processed_from_step by done. by rewrite Hn.
      * destruct (Hok H) as [_ Hu]. lia.
Qed.

(** X14. A record without a 001 field ends the loop with a [KeyError] at the
    turn that reads it: no request is made for it, nothing is written for it
    or for the records after it. *)
Theorem records_loop_missing_001 (num : option Z) (count : Z)
    (next : MarcRecord) (rest : list MarcRecord) (w : world) :
  Forall (fun f => field_tag f <> "001"%string) (fields next) ->
  records_loop py_str network num count (next :: rest) w =
  (Raise KeyError, with_heap w (heap w ++ [next])).
Proof.
  intros Hno. simpl.
  unfold bind, loop_body, bind, reader_next, deref, lift. simpl.
  rewrite list_lookup_middle by done.
  by rewrite (getitem_missing _ _ Hno).
Qed.

(** X15. A lookup that fails, by a status other than 200 or by a body that
    is not JSON, ends the loop at that record with the [TypeError] of
    [update_record] on [None]: the record is not written, nor are the
    records after it. *)
Theorem records_loop_failed_lookup (num : option Z) (count : Z)
    (next : MarcRecord) (rest : list MarcRecord) (w : world)
    (f001 : field) (resp : Response) :
  Record_getitem next "001" = Ok f001 ->
  network (viaf_url (Field_value f001)) = Ok resp ->
  status_code resp <> 200 \/ body_json resp = None ->
  exists w',
    records_loop py_str network num count (next :: rest) w =
    (Raise TypeError, w') /\
    output w' = output w /\
    heap w' = heap w ++ [next].
Proof.
  intros H001 Hnet Hfail. simpl.
  unfold bind, loop_body, bind, reader_next, deref, lift. simpl.
  rewrite list_lookup_middle by done. rewrite H001.
  destruct (viaf_request_failed (Field_value f001)
              (with_heap w (heap w ++ [next])) resp Hnet Hfail)
    as (w1 & -> & Hheap & Hout).
  assert (heap w1 !! length (heap w) = Some next) as Hl.
  { rewrite Hheap. by apply list_lookup_middle. }
  rewrite (update_record_None _ _ _ _ Hl). by exists w1.
Qed.

(** X16. The driver catches nothing: a transport error of the request for a
    record ends the loop with that error, and the record is not written. *)
Theorem records_loop_transport_error (num : option Z) (count : Z)
    (next : MarcRecord) (rest : list MarcRecord) (w : world)
    (f001 : field) (e : exn) :
  Record_getitem next "001" = Ok f001 ->
  network (viaf_url (Field_value f001)) = Raise e ->
  exists w',
    records_loop py_str network num count (next :: rest) w = (Raise e, w') /\
    output w' = output w.
Proof.
  intros H001 Hnet. simpl.
  unfold bind, loop_body, bind, reader_next, deref, lift. simpl.
  rewrite list_lookup_middle by done. rewrite H001.
  unfold viaf_request, bind, requests_get. rewrite Hnet. by eexists.
Qed.

(** X17. The cap is tested after a record is written, so a cap of 1, of 0
    or below 0 still lets one record through: a run on an input that is not
    empty which ends without an exception has written exactly one record. *)
Theorem process_marc_records_small_cap (next : MarcRecord)
    (rest : list MarcRecord) (n : Z) (w w' : world) :
  n <= 1 ->
  process_marc_records py_str network (next :: rest) (Some n) w = (Ok tt, w') ->
  exists out, output w' = output w ++ [out].
Proof.
  intros Hn Hrun.
  change (records_loop py_str network (Some n) 0 (next :: rest)
            (with_stdout w (stdout w ++ [Msg_data_loaded])) = (Ok tt, w'))
    in Hrun.
  apply records_loop_spec in Hrun.
  destruct Hrun as (outs & Hout & _ & Hlen). simpl in Hout.
  specialize (Hlen eq_refl).
  assert (length outs = 1%nat) as Hone.
  { rewrite Hlen. unfold processed_from. simpl length. lia. }
  destruct outs as [|out [|]]; try done. by exists out.
Qed.

(** X18. A run that ends without an exception has made one request, read
    one record into the store and written one record for each record the
    cap lets through. *)
Theorem process_marc_records_counts (input : list MarcRecord)
    (num : option Z) (w w' : world) :
  process_marc_records py_str network input num w = (Ok tt, w') ->
  length (requests w') =
    (length (requests w) + processed_from num 0 (length input))%nat /\
  length (heap w') =
    (length (heap w) + processed_from num 0 (length input))%nat /\
  length (output w') =
    (length (output w) + processed_from num 0 (length input))%nat.
Proof.
  unfold process_marc_records, bind, print. simpl. intros Hrun.
  destruct (records_loop_effects _ _ _ _ _ _ Hrun)
    as (xs & urls & Hh & Hr & _ & _ & Hok).
  destruct (Hok eq_refl) as [Hxs Hurls].
  apply records_loop_spec in Hrun.
  destruct Hrun as (outs & Hout & _ & Hlen). specialize (Hlen eq_refl).
  simpl in Hh, Hr, Hout.
  rewrite Hh, Hr, Hout, !length_app. lia.
Qed.

(** X19. Whatever the end of the run, the driver leaves the objects that
    were in the store before it as they were; it adds at most one object for
    each record of the input and makes at most one request for each record
    it read. *)
Theorem process_marc_records_frame (input : list MarcRecord) (num : option Z)
    (w w' : world) (res : result unit) :
  process_marc_records py_str network input num w = (res, w') ->
  (forall l r, heap w !! l = Some r -> heap w' !! l = Some r) /\
  (length (heap w') <= length (heap w) + length input)%nat /\
  (length (requests w') - length (requests w) <=
   length (heap w') - length (heap w))%nat.
Proof.
  unfold process_marc_records, bind, print. simpl. intros Hrun.
  destruct (records_loop_effects _ _ _ _ _ _ Hrun)
    as (xs & urls & Hh & Hr & Hlx & Hlu & _).
  simpl in Hh, Hr. rewrite Hh, Hr, !length_app.
  repeat split; try lia.
  intros l r Hl. by apply lookup_app_l_Some.
Qed.

End More.

(** * The further properties at concrete inputs *)

Lemma update_record_twice_inserts_twice_witness :
  exists w1 w2 r2,
    update_record str_unused 0%nat (codes_dict PyNone (PyStr "12345") PyNone)
      sample_world = (Ok 0%nat, w1) /\
    update_record str_unused 0%nat (codes_dict PyNone PyNone (PyStr "Q42"))
      w1 = (Ok 0%nat, w2) /\
    heap w2 !! 0%nat = Some r2 /\
    fields r2 =
      slice_to (fields sample_record)
        (last_fixed_index (fields sample_record) + 1) ++
      inserted_fields str_unused PyNone PyNone (PyStr "Q42") ++
      inserted_fields str_unused PyNone (PyStr "12345") PyNone ++
      slice_from (fields sample_record)
        (last_fixed_index (fields sample_record) + 1).
Proof.
  apply (update_record_twice_inserts_twice str_unused 0%nat sample_world
           sample_record PyNone (PyStr "12345") PyNone
           PyNone PyNone (PyStr "Q42")).
  reflexivity.
Defined.

Lemma update_record_falsy_codes_identity_witness :
  update_record str_unused 0%nat
    (codes_dict (PyStr "") PyNone (PyStr "")) sample_world =
  (Ok 0%nat, sample_world).
Proof.
  apply (update_record_falsy_codes_identity str_unused 0%nat sample_world
           sample_record (PyStr "") PyNone (PyStr "")); reflexivity.
Defined.

Lemma update_record_raise_leaves_world_witness :
  update_record str_unused 0%nat (PyInt 7) sample_world =
  (Raise TypeError, sample_world) /\
  sample_world = sample_world.
Proof.
  split; [reflexivity|].
  apply (update_record_raise_leaves_world str_unused 0%nat (PyInt 7)
           sample_world sample_world TypeError).
  reflexivity.
Defined.

Lemma update_record_missing_key_witness :
  update_record str_unused 0%nat
    (PyDict {[ "ISNI" := PyStr "0000000123456789" ]}) sample_world =
  (Raise KeyError, sample_world).
Proof.
  apply (update_record_missing_key str_unused 0%nat sample_world sample_record
           {[ "ISNI" := PyStr "0000000123456789" ]}).
  - reflexivity.
  - right. left. reflexivity.
Defined.

Lemma update_record_field_count_witness :
  exists r',
    heap (update_record str_unused 0%nat sample_codes sample_world).2 !! 0%nat
    = Some r' /\
    length (fields r') = (length (fields sample_record) + 3)%nat /\
    (3 <= 3)%nat.
Proof.
  apply (update_record_field_count str_unused 0%nat sample_world sample_record
           (PyStr "0000000123456789") (PyStr "12345") (PyStr "Q42")).
  reflexivity.
Defined.

Lemma update_record_keeps_other_tags_witness :
  exists r',
    heap (update_record str_unused 0%nat sample_codes sample_world).2 !! 0%nat
    = Some r' /\
    Record_getitem r' "001" = Record_getitem sample_record "001".
Proof.
  apply (update_record_keeps_other_tags str_unused 0%nat sample_world
           sample_record (PyStr "0000000123456789") (PyStr "12345")
           (PyStr "Q42") "001").
  - reflexivity.
  - discriminate.
Defined.

Lemma update_record_keeps_control_fields_witness :
  exists r',
    heap (update_record str_unused 0%nat sample_codes sample_world).2 !! 0%nat
    = Some r' /\
    List.filter is_control_field (fields r') =
    List.filter is_control_field (fields sample_record).
Proof.
  apply (update_record_keeps_control_fields str_unused 0%nat sample_world
           sample_record sample_codes).
  reflexivity.
Defined.

Lemma viaf_request_transport_error_witness :
  viaf_request answer_unreachable "a11111" empty_world =
  (Raise RequestException,
   with_requests empty_world (requests empty_world ++ [viaf_url "a11111"])).
Proof.
  apply (viaf_request_transport_error answer_unreachable "a11111" empty_world
           RequestException).
  reflexivity.
Defined.

Lemma viaf_request_string_value_witness :
  exists codes : gmap string PyValue,
    (viaf_request answer_isni_string "a11111" empty_world).1 =
    Ok (PyDict codes) /\
    codes !! "ISNI" = Some (PyStr "0").
Proof.
  exact (viaf_request_string_value answer_isni_string "a11111" empty_world
           {| status_code := 200;
              body_json :=
                Some (PyDict {[ "ISNI" := PyStr "0000000123456789" ]}) |}
           {[ "ISNI" := PyStr "0000000123456789" ]}
           "0"%char "000000123456789"
           eq_refl eq_refl eq_refl eq_refl (or_introl eq_refl)).
Defined.

Lemma viaf_request_scalar_body_witness :
  (viaf_request answer_number_body "a11111" empty_world).1 = Raise TypeError.
Proof.
  apply (viaf_request_scalar_body answer_number_body "a11111" empty_world
           {| status_code := 200; body_json := Some (PyInt 7) |} (PyInt 7));
    reflexivity.
Defined.

Lemma viaf_request_array_body_witness :
  exists codes : gmap string PyValue,
    (viaf_request answer_array_body "a11111" empty_world).1 =
    Ok (PyDict codes) /\
    codes !! "ISNI" = Some PyNone /\
    codes !! "VIAF" = Some PyNone /\
    codes !! "WKP" = Some PyNone /\
    size codes = 3%nat.
Proof.
  apply (viaf_request_array_body answer_array_body "a11111" empty_world
           {| status_code := 200; body_json := Some (PyList [PyStr "x"]) |}
           [PyStr "x"]);
    try reflexivity;
    (apply not_elem_of_cons; split; [discriminate | apply not_elem_of_nil]).
Defined.

Lemma update_record_after_viaf_request_witness :
  (update_record str_unused 0%nat (codes_dict PyNone (PyStr "999") PyNone)
     (with_requests sample_world [viaf_url "a11111"])).1 = Ok 0%nat.
Proof.
  apply (update_record_after_viaf_request str_unused answer_viaf_only
           "a11111" 0%nat sample_world
           (with_requests sample_world [viaf_url "a11111"])
           (codes_dict PyNone (PyStr "999") PyNone) sample_record);
    reflexivity.
Defined.

Lemma records_loop_missing_001_witness :
  records_loop str_unused answer_viaf_only None 0
    [sample_record_no_control; sample_record] empty_world =
  (Raise KeyError,
   with_heap empty_world (heap empty_world ++ [sample_record_no_control])).
Proof.
  apply (records_loop_missing_001 str_unused answer_viaf_only None 0
           sample_record_no_control [sample_record] empty_world).
  repeat constructor. discriminate.
Defined.

Lemma records_loop_failed_lookup_witness :
  exists w',
    records_loop str_unused answer_404 None 0 [sample_record; sample_record]
      empty_world = (Raise TypeError, w') /\
    output w' = output empty_world /\
    heap w' = heap empty_world ++ [sample_record].
Proof.
  apply (records_loop_failed_lookup str_unused answer_404 None 0 sample_record
           [sample_record] empty_world (ControlField "001" "a11111")
           {| status_code := 404; body_json := None |}).
  - reflexivity.
  - reflexivity.
  - left. simpl. lia.
Defined.

Lemma records_loop_transport_error_witness :
  exists w',
    records_loop str_unused answer_unreachable None 0
      [sample_record; sample_record] empty_world =
    (Raise RequestException, w') /\
    output w' = output empty_world.
Proof.
  apply (records_loop_transport_error str_unused answer_unreachable None 0
           sample_record [sample_record] empty_world
           (ControlField "001" "a11111") RequestException);
    reflexivity.
Defined.

Lemma process_marc_records_small_cap_witness :
  exists out,
    output (process_marc_records str_unused answer_viaf_only
              [sample_record; sample_record] (Some 0) empty_world).2 =
    output empty_world ++ [out].
Proof.
  apply (process_marc_records_small_cap str_unused answer_viaf_only
           sample_record [sample_record] 0 empty_world).
  - lia.
  - vm_compute. reflexivity.
Defined.

(** Five records with a cap of two: two requests, two records written. *)
Lemma process_marc_records_counts_witness :
  let input := [sample_record; sample_record; sample_record; sample_record;
                sample_record] in
  let w' := (process_marc_records str_unused answer_viaf_only input (Some 2)
               empty_world).2 in
  length (requests w') = (length (requests empty_world) + 2)%nat /\
  length (heap w') = (length (heap empty_world) + 2)%nat /\
  length (output w') = (length (output empty_world) + 2)%nat.
Proof.
  apply (process_marc_records_counts str_unused answer_viaf_only
           [sample_record; sample_record; sample_record; sample_record;
            sample_record] (Some 2) empty_world).
  vm_compute. reflexivity.
Defined.

Lemma process_marc_records_frame_witness :
  let w' := (process_marc_records str_unused answer_404 [sample_record] None
               sample_world).2 in
  (forall l r, heap sample_world !! l = Some r -> heap w' !! l = Some r) /\
  (length (heap w') <= length (heap sample_world) + 1)%nat /\
  (length (requests w') - length (requests sample_world) <=
   length (heap w') - length (heap sample_world))%nat.
Proof.
  apply (process_marc_records_frame str_unused answer_404 [sample_record] None
           sample_world _ (Raise TypeError)).
  vm_compute. reflexivity.
Defined.

(** The first character of a string that starts outside ASCII: both bytes of
    the first letter of "Õ123". *)
Example py_item0_two_byte_character :
  py_item0 (PyStr "Õ123") = Ok (PyStr "Õ") /\
  String.length "Õ" = 2%nat.
Proof. split; reflexivity. Qed.
